(** * etl.py: the song/event ETL job, embedded and verified

    The job reads two classes of JSON input through a Spark session, derives
    five tables (songs, artists, users, time, songplays) by projection,
    de-duplication, renaming and one join, and writes each one as Parquet.

    The embedding follows the layers of the script:
    - [Py]: the Python side (exceptions, [os.path.join], the module's global
      names);
    - [Spark]: the dataframe engine as the script uses it (values, frames,
      column expressions, [select], [dropDuplicates], [withColumnRenamed],
      [filter], [withColumn], temporary views and the SQL join, the reader and
      the writer);
    - [Etl]: the script itself, function by function. *)

From Stdlib Require Import List String Ascii ZArith Bool Lia Arith.
From Stdlib Require Import Floats.SpecFloat.
Import ListNotations.

Open Scope string_scope.
Open Scope list_scope.

(* ================================================================== *)
(** * The Python side *)
(* ================================================================== *)

Module Py.

(** The exceptions that can end a run of the script. *)
Inductive exn : Type :=
| NameError (name : string)
| AttributeError (name : string)
| TypeError (msg : string)
| AnalysisException (msg : string)
| ParseException (msg : string)
| IllegalArgumentException (msg : string).

(** A computation that returns or raises. *)
Inductive py (A : Type) : Type :=
| Ok (a : A)
| Raise (e : exn).

Arguments Ok {A} a.
Arguments Raise {A} e.

Definition bind {A B : Type} (m : py A) (k : A -> py B) : py B :=
  match m with
  | Ok a => k a
  | Raise e => Raise e
  end.

Definition startswith_sep (s : string) : bool :=
  match s with
  | String c _ => Ascii.eqb c "/"
  | EmptyString => false
  end.

Fixpoint endswith_sep (s : string) : bool :=
  match s with
  | EmptyString => false
  | String c s' =>
      match s' with
      | EmptyString => Ascii.eqb c "/"
      | String _ _ => endswith_sep s'
      end
  end.

Definition is_empty (s : string) : bool :=
  match s with
  | EmptyString => true
  | String _ _ => false
  end.

(** One round of the loop of [posixpath.join]: a component that starts with
    the separator replaces the path, an empty path or one that ends with the
    separator takes the component as it is, any other path takes the
    separator first. *)
Definition join_step (path b : string) : string :=
  if startswith_sep b then b
  else if is_empty path || endswith_sep path then String.append path b
  else String.append path (String.append "/" b).

(** [os.path.join(a, p...)]. *)
Definition os_path_join (a : string) (p : list string) : string :=
  fold_left join_step p a.

End Py.

Export Py.

Notation "x <- m ;; k" := (Py.bind m (fun x => k))
  (at level 61, m at next level, right associativity).

(* ================================================================== *)
(** * The dataframe engine, as the script uses it *)
(* ================================================================== *)

Module Spark.

(** ** Values *)

(** A cell of a table.  Integral types are [VInt]; a double is an IEEE-754
    binary64 datum; a timestamp is a count of microseconds since the epoch. *)
Inductive value : Type :=
| VNull
| VBool (b : bool)
| VInt (n : Z)
| VDouble (x : spec_float)
| VStr (s : string)
| VTimestamp (us : Z).

(** The engine normalises doubles before it compares or groups them: the two
    zeros are one value (and NaN is one value, which [spec_float] has
    already). *)
Definition norm_double (x : spec_float) : spec_float :=
  match x with
  | S754_zero _ => S754_zero false
  | _ => x
  end.

Definition norm_value (v : value) : value :=
  match v with
  | VDouble x => VDouble (norm_double x)
  | _ => v
  end.

Definition double_eqb (x y : spec_float) : bool :=
  match x, y with
  | S754_zero a, S754_zero b => Bool.eqb a b
  | S754_infinity a, S754_infinity b => Bool.eqb a b
  | S754_nan, S754_nan => true
  | S754_finite s m e, S754_finite s' m' e' =>
      Bool.eqb s s' && Pos.eqb m m' && Z.eqb e e'
  | _, _ => false
  end.

Definition value_eqb (a b : value) : bool :=
  match a, b with
  | VNull, VNull => true
  | VBool x, VBool y => Bool.eqb x y
  | VInt x, VInt y => Z.eqb x y
  | VDouble x, VDouble y => double_eqb x y
  | VStr x, VStr y => String.eqb x y
  | VTimestamp x, VTimestamp y => Z.eqb x y
  | _, _ => false
  end.

(** Null-safe equality, the one grouping and de-duplication use. *)
Definition same_value (a b : value) : bool :=
  value_eqb (norm_value a) (norm_value b).

(** An integral value as a double, rounded to the nearest one. *)
Definition double_of_int (n : Z) : spec_float :=
  binary_normalize 53 1024 n 0 false.

(** The SQL comparison [a = b]: unknown (null) as soon as one side is null;
    an integral value next to a double is compared as a double. *)
Definition sql_eq (a b : value) : value :=
  match a, b with
  | VNull, _ => VNull
  | _, VNull => VNull
  | VInt n, VDouble _ => VBool (same_value (VDouble (double_of_int n)) b)
  | VDouble _, VInt n => VBool (same_value a (VDouble (double_of_int n)))
  | _, _ => VBool (same_value a b)
  end.

Definition is_true (v : value) : bool :=
  match v with
  | VBool true => true
  | _ => false
  end.

(** ** Calendar functions on timestamps *)

Section Calendar.

Local Open Scope Z_scope.

(** The session time zone: the offset from UTC, in seconds, at an instant
    given in microseconds. *)
Variable tz : Z -> Z.

Definition local_seconds (us : Z) : Z := us / 1000000 + tz us.
Definition local_days (us : Z) : Z := local_seconds us / 86400.
Definition second_of_day (us : Z) : Z := local_seconds us mod 86400.

(** Year, month and day of a day count since 1970-01-01, in the proleptic
    Gregorian calendar (eras of 400 years that start on 1 March). *)
Definition civil_from_days (days : Z) : Z * Z * Z :=
  let z := days + 719468 in
  let era := z / 146097 in
  let doe := z - era * 146097 in
  let yoe := (doe - doe / 1460 + doe / 36524 - doe / 146096) / 365 in
  let y := yoe + era * 400 in
  let doy := doe - (365 * yoe + yoe / 4 - yoe / 100) in
  let mp := (5 * doy + 2) / 153 in
  let d := doy - (153 * mp + 2) / 5 + 1 in
  let m := if mp <? 10 then mp + 3 else mp - 9 in
  ((if m <=? 2 then y + 1 else y), m, d).

(** The day count of a calendar date. *)
Definition days_from_civil (y m d : Z) : Z :=
  let y' := if m <=? 2 then y - 1 else y in
  let era := y' / 400 in
  let yoe := y' - era * 400 in
  let mp := if 2 <? m then m - 3 else m + 9 in
  let doy := (153 * mp + 2) / 5 + d - 1 in
  let doe := yoe * 365 + yoe / 4 - yoe / 100 + doy in
  era * 146097 + doe - 719468.

Definition ts_year (us : Z) : Z := fst (fst (civil_from_days (local_days us))).
Definition ts_month (us : Z) : Z := snd (fst (civil_from_days (local_days us))).
Definition ts_dayofmonth (us : Z) : Z := snd (civil_from_days (local_days us)).
Definition ts_hour (us : Z) : Z := second_of_day us / 3600.

(** Sunday is 1 and Saturday is 7 (1970-01-01 was a Thursday). *)
Definition ts_dayofweek (us : Z) : Z := (local_days us + 4) mod 7 + 1.

(** The ISO-8601 week: the week of a day is the week of its Thursday, and
    weeks are counted within the year of that Thursday. *)
Definition ts_weekofyear (us : Z) : Z :=
  let days := local_days us in
  let monday0 := (days + 3) mod 7 in
  let thursday := days - monday0 + 3 in
  let y := fst (fst (civil_from_days thursday)) in
  (thursday - days_from_civil y 1 1) / 7 + 1.

Definition on_timestamp (f : Z -> Z) (v : value) : value :=
  match v with
  | VTimestamp us => VInt (f us)
  | _ => VNull
  end.

(** The engine's function registry, by name; the dataframe API and SQL text
    share it. *)
Definition builtin (name : string) : option (value -> value) :=
  if String.eqb name "hour" then Some (on_timestamp ts_hour)
  else if String.eqb name "dayofmonth" then Some (on_timestamp ts_dayofmonth)
  else if String.eqb name "weekofyear" then Some (on_timestamp ts_weekofyear)
  else if String.eqb name "month" then Some (on_timestamp ts_month)
  else if String.eqb name "year" then Some (on_timestamp ts_year)
  else if String.eqb name "dayofweek" then Some (on_timestamp ts_dayofweek)
  else None.

End Calendar.

(** ** Frames *)

Definition Row : Type := list value.

(** A table: the column names and the rows, each row positional. *)
Record DataFrame : Type := mkDataFrame {
  columns : list string;
  rows : list Row
}.

Fixpoint index_of (c : string) (cols : list string) : option nat :=
  match cols with
  | [] => None
  | c' :: cols' =>
      if String.eqb c c' then Some 0%nat
      else option_map S (index_of c cols')
  end.

(** The cell of row [r] under column [c]; a position the row lacks reads as
    null. *)
Definition cell (cols : list string) (r : Row) (c : string) : value :=
  match index_of c cols with
  | Some i => nth i r VNull
  | None => VNull
  end.

Definition has_column (cols : list string) (c : string) : bool :=
  existsb (String.eqb c) cols.

Definition has_columns (cs : list string) (df : DataFrame) : bool :=
  forallb (has_column (columns df)) cs.

(** ** Column expressions *)

Inductive Column : Type :=
| Col (name : string)
| Lit (v : value)
| EqTo (a b : Column)
| Fn (name : string) (arg : Column)
| Udf (f : value -> value) (arg : Column).

Section Expressions.

Variable tz : Z -> Z.

Fixpoint resolves (cols : list string) (e : Column) : bool :=
  match e with
  | Col c => has_column cols c
  | Lit _ => true
  | EqTo a b => resolves cols a && resolves cols b
  | Fn name a =>
      match builtin tz name with
      | Some _ => resolves cols a
      | None => false
      end
  | Udf _ a => resolves cols a
  end.

Fixpoint eval (cols : list string) (r : Row) (e : Column) : value :=
  match e with
  | Col c => cell cols r c
  | Lit v => v
  | EqTo a b => sql_eq (eval cols r a) (eval cols r b)
  | Fn name a =>
      match builtin tz name with
      | Some f => f (eval cols r a)
      | None => VNull
      end
  | Udf f a => f (eval cols r a)
  end.

End Expressions.

(** ** Transformations *)

Definition unresolved : exn := AnalysisException "cannot resolve column".

(** [df.select(cs)]. *)
Definition select (cs : list string) (df : DataFrame) : py DataFrame :=
  if has_columns cs df then
    Ok (mkDataFrame cs (map (fun r => map (cell (columns df) r) cs) (rows df)))
  else Raise unresolved.

Fixpoint list_eqb (k1 k2 : list value) : bool :=
  match k1, k2 with
  | [], [] => true
  | a :: k1', b :: k2' => value_eqb a b && list_eqb k1' k2'
  | _, _ => false
  end.

(** The grouping key of a row: its cells under the key columns, normalised. *)
Definition row_key (cols subset : list string) (r : Row) : list value :=
  map (fun c => norm_value (cell cols r c)) subset.

(** One row per key.  The engine does not say which row of a group it
    keeps; here it is the first one in the order of the frame. *)
Fixpoint drop_dups (key : Row -> list value) (seen : list (list value))
    (rs : list Row) : list Row :=
  match rs with
  | [] => []
  | r :: rs' =>
      if existsb (list_eqb (key r)) seen then drop_dups key seen rs'
      else r :: drop_dups key (key r :: seen) rs'
  end.

(** [df.dropDuplicates(subset)]. *)
Definition dropDuplicates (subset : list string) (df : DataFrame)
    : py DataFrame :=
  if has_columns subset df then
    Ok (mkDataFrame (columns df)
          (drop_dups (row_key (columns df) subset) [] (rows df)))
  else Raise unresolved.

(** [df.withColumnRenamed(existing, new)]: nothing happens when the frame
    has no column [existing]. *)
Definition withColumnRenamed (existing new : string) (df : DataFrame)
    : DataFrame :=
  mkDataFrame
    (map (fun c => if String.eqb c existing then new else c) (columns df))
    (rows df).

(** [df.c], a Python attribute access. *)
Definition attr (df : DataFrame) (c : string) : py Column :=
  if has_column (columns df) c then Ok (Col c) else Raise (AttributeError c).

(** [df.filter(cond)] keeps the rows on which [cond] is true (not null, not
    false). *)
Definition filter (tz : Z -> Z) (cond : Column) (df : DataFrame)
    : py DataFrame :=
  if resolves tz (columns df) cond then
    Ok (mkDataFrame (columns df)
          (List.filter (fun r => is_true (eval tz (columns df) r cond))
             (rows df)))
  else Raise unresolved.

(** Writing position [i] of a row, the row padded with nulls up to there. *)
Definition set_nth (i : nat) (v : value) (r : Row) : Row :=
  firstn i (r ++ repeat VNull i) ++ v :: skipn (S i) r.

Definition column_slot (cols : list string) (name : string) : nat :=
  match index_of name cols with
  | Some i => i
  | None => List.length cols
  end.

Definition columns_with (cols : list string) (name : string) : list string :=
  if has_column cols name then cols else cols ++ [name].

(** [df.withColumn(name, e)]: replaces the column of that name, or adds it
    as the last one. *)
Definition withColumn (tz : Z -> Z) (name : string) (e : Column)
    (df : DataFrame) : py DataFrame :=
  if resolves tz (columns df) e then
    Ok (mkDataFrame (columns_with (columns df) name)
          (map (fun r => set_nth (column_slot (columns df) name)
                           (eval tz (columns df) r e) r)
             (rows df)))
  else Raise unresolved.

(** [df.withColumn(name, monotonically_increasing_id())].  The engine's id
    is [partition * 2^33 + position in the partition]; the frame is held in
    one partition here, so the id of a row is its position. *)
Definition withColumn_monotonically_increasing_id (name : string)
    (df : DataFrame) : DataFrame :=
  mkDataFrame (columns_with (columns df) name)
    (map (fun kr => set_nth (column_slot (columns df) name)
                      (VInt (Z.of_nat (fst kr))) (snd kr))
       (combine (seq 0 (List.length (rows df))) (rows df))).

(** ** Association lists keyed by strings *)

Fixpoint lookup {A : Type} (k : string) (l : list (string * A)) : option A :=
  match l with
  | [] => None
  | (k', a) :: l' => if String.eqb k k' then Some a else lookup k l'
  end.

Fixpoint remove_key {A : Type} (k : string) (l : list (string * A))
    : list (string * A) :=
  match l with
  | [] => []
  | (k', a) :: l' =>
      if String.eqb k k' then remove_key k l' else (k', a) :: remove_key k l'
  end.

Definition put {A : Type} (k : string) (a : A) (l : list (string * A))
    : list (string * A) :=
  (k, a) :: remove_key k l.

(** ** SQL: the fragment the script's query is written in *)

Inductive sql_expr : Type :=
| SqlCol (qualifier name : string)
| SqlLit (v : value)
| SqlFn (name : string) (arg : sql_expr).

(** An item of a select list, with the name of the column it makes. *)
Record select_item : Type := mkItem {
  item_expr : sql_expr;
  item_name : string
}.

Inductive sql_cond : Type :=
| SqlEq (a b : sql_expr).

(** [SELECT q_select FROM q_from WHERE c1 AND c2 AND ...]; an entry of
    [q_from] is a view and its alias. *)
Record query : Type := mkQuery {
  q_select : list select_item;
  q_from : list (string * string);
  q_where : list sql_cond
}.

(** The text of a query, as far as commas go: [text_select] holds what
    stands between two commas of the select list, item by item. *)
Record sql_text : Type := mkSqlText {
  text_select : list (list select_item);
  text_from : list (string * string);
  text_where : list sql_cond
}.

Definition one_item (entry : list select_item) : bool :=
  match entry with
  | [_] => true
  | _ => false
  end.

(** The parser wants exactly one item between two commas. *)
Definition parse_sql (t : sql_text) : py query :=
  if forallb one_item (text_select t) then
    Ok (mkQuery (List.concat (text_select t)) (text_from t) (text_where t))
  else Raise (ParseException "mismatched input in select list").

(** A row of the product of the FROM list: one row per alias. *)
Definition sql_env : Type := list (string * (list string * Row)).

Section Sql.

Variable tz : Z -> Z.

Fixpoint sql_resolves (scope : list (string * list string)) (e : sql_expr)
    : bool :=
  match e with
  | SqlCol q c =>
      match lookup q scope with
      | Some cols => has_column cols c
      | None => false
      end
  | SqlLit _ => true
  | SqlFn f a =>
      match builtin tz f with
      | Some _ => sql_resolves scope a
      | None => false
      end
  end.

Fixpoint sql_eval (env : sql_env) (e : sql_expr) : value :=
  match e with
  | SqlCol q c =>
      match lookup q env with
      | Some (cols, r) => cell cols r c
      | None => VNull
      end
  | SqlLit v => v
  | SqlFn f a =>
      match builtin tz f with
      | Some g => g (sql_eval env a)
      | None => VNull
      end
  end.

Definition cond_resolves (scope : list (string * list string)) (c : sql_cond)
    : bool :=
  match c with
  | SqlEq a b => sql_resolves scope a && sql_resolves scope b
  end.

Definition cond_eval (env : sql_env) (c : sql_cond) : value :=
  match c with
  | SqlEq a b => sql_eq (sql_eval env a) (sql_eval env b)
  end.

(** A conjunction is true exactly when each conjunct is true. *)
Definition where_true (conds : list sql_cond) (env : sql_env) : bool :=
  forallb (fun c => is_true (cond_eval env c)) conds.

Fixpoint from_tables (views : list (string * DataFrame))
    (from : list (string * string)) : py (list (string * DataFrame)) :=
  match from with
  | [] => Ok []
  | (view, alias) :: from' =>
      match lookup view views with
      | None => Raise (AnalysisException "Table or view not found")
      | Some t =>
          ts <- from_tables views from';;
          Ok ((alias, t) :: ts)
      end
  end.

(** The product of the tables of the FROM list, the first one outermost. *)
Fixpoint cross (ts : list (string * DataFrame)) : list sql_env :=
  match ts with
  | [] => [[]]
  | (alias, t) :: ts' =>
      flat_map
        (fun r => map (fun env => (alias, (columns t, r)) :: env) (cross ts'))
        (rows t)
  end.

Definition project (items : list select_item) (env : sql_env) : Row :=
  map (fun it => sql_eval env (item_expr it)) items.

Definition run_query (views : list (string * DataFrame)) (q : query)
    : py DataFrame :=
  ts <- from_tables views (q_from q);;
  let scope := map (fun at_ => (fst at_, columns (snd at_))) ts in
  if forallb (fun it => sql_resolves scope (item_expr it)) (q_select q)
     && forallb (cond_resolves scope) (q_where q)
  then
    Ok (mkDataFrame (map item_name (q_select q))
          (map (project (q_select q))
             (List.filter (where_true (q_where q)) (cross ts))))
  else Raise unresolved.

End Sql.

(** ** The session, the reader and the writer *)

Record read_request : Type := mkRead {
  source_format : string;
  load_path : string
}.

(** A session: its configuration, its time zone, and the storage behind its
    reader (what a read of a path in a format gives). *)
Record SparkSession : Type := mkSession {
  conf : list (string * string);
  time_zone : Z -> Z;
  read_source : read_request -> py DataFrame
}.

(** What a session is created on. *)
Record cluster : Type := mkCluster {
  cluster_time_zone : Z -> Z;
  cluster_storage : read_request -> py DataFrame
}.

(** [SparkSession.builder.config(k, v)....getOrCreate()]. *)
Definition builder_getOrCreate (options : list (string * string))
    (c : cluster) : SparkSession :=
  mkSession options (cluster_time_zone c) (cluster_storage c).

(** The format of a read that names none: the configuration entry
    [spark.sql.sources.default], which is [parquet] unless it is set. *)
Definition default_source (spark : SparkSession) : string :=
  match lookup "spark.sql.sources.default" (conf spark) with
  | Some f => f
  | None => "parquet"
  end.

(** [spark.read.load(path)]. *)
Definition read_load (spark : SparkSession) (path : string) : py DataFrame :=
  read_source spark (mkRead (default_source spark) path).

(** [spark.read.json(path)]. *)
Definition read_json (spark : SparkSession) (path : string) : py DataFrame :=
  read_source spark (mkRead "json" path).

(** [spark.sql(text)]. *)
Definition spark_sql (spark : SparkSession)
    (views : list (string * DataFrame)) (t : sql_text) : py DataFrame :=
  q <- parse_sql t;;
  run_query (time_zone spark) views q.

(** What a path of the output storage holds. *)
Record stored : Type := mkStored {
  partition_by : list string;
  data : DataFrame
}.

(** What a run changes: the output storage and the session's temporary
    views. *)
Record world : Type := mkWorld {
  outputs : list (string * stored);
  temp_views : list (string * DataFrame)
}.

Definition run (A : Type) : Type := world -> world * py A.

Definition ret {A : Type} (a : A) : run A := fun w => (w, Ok a).

Definition lift {A : Type} (m : py A) : run A := fun w => (w, m).

Definition bind_run {A B : Type} (m : run A) (k : A -> run B) : run B :=
  fun w =>
    match m w with
    | (w', Ok a) => k a w'
    | (w', Raise e) => (w', Raise e)
    end.

Inductive SaveMode : Type := Append | Overwrite | ErrorIfExists | Ignore.

Definition save_mode_of (mode : string) : py SaveMode :=
  if String.eqb mode "append" then Ok Append
  else if String.eqb mode "overwrite" then Ok Overwrite
  else if String.eqb mode "error" then Ok ErrorIfExists
  else if String.eqb mode "errorifexists" then Ok ErrorIfExists
  else if String.eqb mode "ignore" then Ok Ignore
  else Raise (IllegalArgumentException "Unknown save mode").

Definition save (m : SaveMode) (path : string) (new : stored)
    (outs : list (string * stored)) : py (list (string * stored)) :=
  match m, lookup path outs with
  | Overwrite, _ => Ok (put path new outs)
  | _, None => Ok (put path new outs)
  | Append, Some old =>
      Ok (put path
            (mkStored (partition_by old)
               (mkDataFrame (columns (data old))
                  (rows (data old) ++ rows (data new))))
            outs)
  | ErrorIfExists, Some _ => Raise (AnalysisException "path already exists")
  | Ignore, Some _ => Ok outs
  end.

(** [df.write.partitionBy(parts).parquet(path, mode)]. *)
Definition write_parquet (parts : list string) (path mode : string)
    (df : DataFrame) : run unit :=
  fun w =>
    match save_mode_of mode with
    | Raise e => (w, Raise e)
    | Ok m =>
        if forallb (has_column (columns df)) parts then
          match save m path (mkStored parts df) (outputs w) with
          | Ok outs => (mkWorld outs (temp_views w), Ok tt)
          | Raise e => (w, Raise e)
          end
        else (w, Raise unresolved)
    end.

(** [df.createOrReplaceTempView(name)]. *)
Definition createOrReplaceTempView (name : string) (df : DataFrame)
    : run unit :=
  fun w => (mkWorld (outputs w) (put name df (temp_views w)), Ok tt).

Definition get_views : run (list (string * DataFrame)) :=
  fun w => (w, Ok (temp_views w)).

End Spark.

Export Spark.

Notation "x <-- m ;; k" := (Spark.bind_run m (fun x => k))
  (at level 61, m at next level, right associativity).

(* ================================================================== *)
(** * The script *)
(* ================================================================== *)

Module Etl.

(** ** The module's global names *)

(** What a global name of the module denotes, as far as the script uses
    it. *)
Inductive pyobj : Type :=
| PyModule
| PyClass
| PyFunction
| PyObject
| PySqlFunction (name : string)
| PyCallable (f : value -> value).

(** The names the module binds: its imports (lines 1 to 7), [config]
    (line 10) and its four functions.  A name the module does not bind is
    looked up in Python's builtins, which hold none of the names the two
    stages read.  The reading of [dl.cfg] (lines 10 to 14) sets credentials
    for the storage and is left to the cluster. *)
Definition etl_globals : list (string * pyobj) :=
  [ ("configparser", PyModule);
    ("datetime", PyClass);
    ("os", PyModule);
    ("SparkSession", PyClass);
    ("udf", PyFunction);
    ("col", PyFunction);
    ("year", PySqlFunction "year");
    ("month", PySqlFunction "month");
    ("dayofmonth", PySqlFunction "dayofmonth");
    ("hour", PySqlFunction "hour");
    ("weekofyear", PySqlFunction "weekofyear");
    ("date_format", PySqlFunction "date_format");
    ("monotonically_increasing_id", PyFunction);
    ("TimestampType", PyClass);
    ("config", PyObject);
    ("create_spark_session", PyFunction);
    ("process_song_data", PyFunction);
    ("process_log_data", PyFunction);
    ("main", PyFunction) ].

(** Reading a global name: [NameError] when the module does not bind it. *)
Definition global_ (globals : list (string * pyobj)) (name : string)
    : py pyobj :=
  match lookup name globals with
  | Some o => Ok o
  | None => Raise (NameError name)
  end.

(** A name used as a function of [pyspark.sql.functions], applied to a
    column name. *)
Definition column_function (globals : list (string * pyobj)) (name : string)
    : py (string -> Column) :=
  o <- global_ globals name;;
  match o with
  | PySqlFunction f => Ok (fun c => Fn f (Col c))
  | _ => Raise (TypeError "not a column function")
  end.

(** A name used as a Python function on cell values. *)
Definition callable (globals : list (string * pyobj)) (name : string)
    : py (value -> value) :=
  o <- global_ globals name;;
  match o with
  | PyCallable f => Ok f
  | _ => Raise (TypeError "not callable")
  end.

(** ** create_spark_session (lines 17 to 25) *)

Definition create_spark_session (c : cluster) : SparkSession :=
  builder_getOrCreate
    [("spark.jars.packages", "org.apache.hadoop:hadoop-aws:2.7.0")] c.

(** ** process_song_data (lines 28 to 60) *)

(** Line 37. *)
Definition song_data (input_data : string) : string :=
  os_path_join input_data ["song_data"; "*"; "*"; "*"; "*.json"].

(** Lines 43 and 44. *)
Definition songs_table (df : DataFrame) : py DataFrame :=
  t <- select ["song_id"; "title"; "artist_id"; "year"; "duration"] df;;
  dropDuplicates ["song_id"] t.

(** Lines 51 to 56. *)
Definition artists_table (df : DataFrame) : py DataFrame :=
  t <- select ["artist_id"; "artist_name"; "artist_location";
               "artist_latitude"; "artist_longitude"] df;;
  t <- dropDuplicates ["artist_id"] t;;
  Ok (withColumnRenamed "artist_longitude" "longitude"
        (withColumnRenamed "artist_latitude" "latitude"
           (withColumnRenamed "artist_location" "location"
              (withColumnRenamed "artist_name" "name" t)))).

Definition process_song_data (globals : list (string * pyobj))
    (spark : SparkSession) (input_data output_data : string) : run unit :=
  _ <-- lift (global_ globals "os");;
  df <-- lift (read_load spark (song_data input_data));;
  songs <-- lift (songs_table df);;
  _ <-- write_parquet ["year"; "artist_id"]
          (os_path_join output_data ["songs"]) "overwrite" songs;;
  artists <-- lift (artists_table df);;
  write_parquet [] (os_path_join output_data ["artists"]) "overwrite" artists.

(** ** process_log_data (lines 63 to 139) *)

(** Line 72. *)
Definition log_data (input_data : string) : string :=
  os_path_join input_data ["log_data"; "*"; "*"; "*.json"].

(** Line 78. *)
Definition nextsong (spark : SparkSession) (df : DataFrame) : py DataFrame :=
  page <- attr df "page";;
  filter (time_zone spark) (EqTo page (Lit (VStr "NextSong"))) df.

(** Lines 81 to 85. *)
Definition users_table (df : DataFrame) : py DataFrame :=
  t <- select ["userId"; "firstName"; "lastName"; "gender"; "level"] df;;
  t <- dropDuplicates ["userId"] t;;
  Ok (withColumnRenamed "lastName" "last_name"
        (withColumnRenamed "firstName" "first_name"
           (withColumnRenamed "userId" "user_id" t))).

(** Line 92: [udf(date_convert, TimestampType())]. *)
Definition get_timestamp (globals : list (string * pyobj))
    : py (value -> value) :=
  _ <- global_ globals "udf";;
  f <- callable globals "date_convert";;
  _ <- global_ globals "TimestampType";;
  Ok f.

(** Line 93.  [get_timestamp] is what line 92 gave. *)
Definition with_start_time (spark : SparkSession)
    (get_timestamp : value -> value) (df : DataFrame) : py DataFrame :=
  ts <- attr df "ts";;
  withColumn (time_zone spark) "start_time" (Udf get_timestamp ts) df.

(** Lines 96 to 103.  Each of the six function names is read where the
    expression comes to it, so the arguments are the readings themselves. *)
Definition time_table (spark : SparkSession)
    (hour dayofmonth weekofyear month year dayofweek : py (string -> Column))
    (df : DataFrame) : py DataFrame :=
  let tz := time_zone spark in
  t <- select ["start_time"] df;;
  t <- dropDuplicates ["start_time"] t;;
  f <- hour;;
  t <- withColumn tz "hour" (f "start_time") t;;
  f <- dayofmonth;;
  t <- withColumn tz "day" (f "start_time") t;;
  f <- weekofyear;;
  t <- withColumn tz "week" (f "start_time") t;;
  f <- month;;
  t <- withColumn tz "month" (f "start_time") t;;
  f <- year;;
  t <- withColumn tz "year" (f "start_time") t;;
  f <- dayofweek;;
  withColumn tz "weekday" (f "start_time") t.

(** Line 111. *)
Definition song_df_path (input_data : string) : string :=
  os_path_join input_data ["song_data"; "*"; "*"; "*"].

(** Line 115. *)
Definition songplay_events (df : DataFrame) : DataFrame :=
  withColumn_monotonically_increasing_id "songplay_id" df.

(** The views of lines 112 and 116, over the views the session had. *)
Definition songplays_views (old : list (string * DataFrame))
    (df song_df : DataFrame) : list (string * DataFrame) :=
  put "events" (songplay_events df) (put "songs" song_df old).

Definition songplays_from : list (string * string) :=
  [("events", "event"); ("songs", "song")].

Definition songplays_where : list sql_cond :=
  [ SqlEq (SqlCol "event" "page") (SqlLit (VStr "NextSong"));
    SqlEq (SqlCol "event" "song") (SqlCol "song" "title");
    SqlEq (SqlCol "event" "artist") (SqlCol "song" "artist_name");
    SqlEq (SqlCol "event" "length") (SqlCol "song" "duration") ].

(** The query text of lines 118 to 135.  Its select list has ten entries
    between commas: no comma stands between [event.userAgent as user_agent]
    (line 127) and [year(event.start_time) as year] (line 128). *)
Definition songplays_sql : sql_text :=
  mkSqlText
    [ [mkItem (SqlCol "event" "songplay_id") "songplay_id"];
      [mkItem (SqlCol "event" "start_time") "start_time"];
      [mkItem (SqlCol "event" "userId") "user_id"];
      [mkItem (SqlCol "event" "level") "level"];
      [mkItem (SqlCol "song" "song_id") "song_id"];
      [mkItem (SqlCol "song" "artist_id") "artist_id"];
      [mkItem (SqlCol "event" "sessionId") "session_id"];
      [mkItem (SqlCol "event" "location") "location"];
      [mkItem (SqlCol "event" "userAgent") "user_agent";
       mkItem (SqlFn "year" (SqlCol "event" "start_time")) "year"];
      [mkItem (SqlFn "month" (SqlCol "event" "start_time")) "month"] ]
    songplays_from
    songplays_where.

Definition process_log_data (globals : list (string * pyobj))
    (spark : SparkSession) (input_data output_data : string) : run unit :=
  _ <-- lift (global_ globals "os");;
  df <-- lift (read_json spark (log_data input_data));;
  df <-- lift (nextsong spark df);;
  users <-- lift (users_table df);;
  _ <-- write_parquet [] (os_path_join output_data ["users"]) "overwrite"
          users;;
  f <-- lift (get_timestamp globals);;
  df <-- lift (with_start_time spark f df);;
  times <-- lift (time_table spark
                    (column_function globals "hour")
                    (column_function globals "dayofmonth")
                    (column_function globals "weekofyear")
                    (column_function globals "month")
                    (column_function globals "year")
                    (column_function globals "dayofweek") df);;
  _ <-- write_parquet ["year"; "month"] (os_path_join output_data ["times"])
          "overwrite" times;;
  song_df <-- lift (read_json spark (song_df_path input_data));;
  _ <-- createOrReplaceTempView "songs" song_df;;
  _ <-- lift (global_ globals "monotonically_increasing_id");;
  _ <-- createOrReplaceTempView "events" (songplay_events df);;
  views <-- get_views;;
  songplays <-- lift (spark_sql spark views songplays_sql);;
  write_parquet ["year"; "month"] (os_path_join output_data ["songplays"])
    "overwrite" songplays.

(** ** main (lines 142 to 152) *)

Definition input_data : string := "s3a://udacity-dend/".
Definition output_data : string := "s3a://datalake-udacity-haipd4/".

Definition main (globals : list (string * pyobj)) (c : cluster) : run unit :=
  let spark := create_spark_session c in
  _ <-- process_song_data globals spark input_data output_data;;
  process_log_data globals spark input_data output_data.

End Etl.

Export Etl.

(* ================================================================== *)
(** * What the statements below speak of *)
(* ================================================================== *)

Module Tables.

(** The key of a row of a table under a column, as grouping sees it. *)
Definition key_of (t : DataFrame) (c : string) (r : Row) : value :=
  norm_value (cell (columns t) r c).

(** The row is a song play: its page is the string NextSong. *)
Definition page_is_nextsong (cols : list string) (e : Row) : bool :=
  is_true (sql_eq (cell cols e "page") (VStr "NextSong")).

(** An event row of the view next to the filtered row it comes from: the
    cells of that row, and the start time line 93 gives it. *)
Definition event_of (date_convert : value -> value) (ev df : DataFrame)
    (e r : Row) : Prop :=
  (forall c, c <> "start_time" -> c <> "songplay_id" ->
     cell (columns ev) e c = cell (columns df) r c)
  /\ cell (columns ev) e "start_time"
     = date_convert (cell (columns df) r "ts").

(** The module's names with [date_convert] bound to a function. *)
Definition globals_with_date_convert (f : value -> value)
    : list (string * pyobj) :=
  ("date_convert", PyCallable f) :: etl_globals.

(** A name of [pyspark.sql.functions], bound. *)
Definition pyspark_fn (name : string) : py (string -> Column) :=
  Ok (fun c => Fn name (Col c)).

(** The time table of lines 96 to 103 with its six function names bound to
    the functions of [pyspark.sql.functions] they name. *)
Definition time_table_bound (spark : SparkSession) (df : DataFrame)
    : py DataFrame :=
  time_table spark (pyspark_fn "hour") (pyspark_fn "dayofmonth")
    (pyspark_fn "weekofyear") (pyspark_fn "month") (pyspark_fn "year")
    (pyspark_fn "dayofweek") df.

(** The events view of the stage, from the log frame: lines 78, 93 and
    115. *)
Definition events_view (spark : SparkSession) (date_convert : value -> value)
    (log : DataFrame) : py DataFrame :=
  df <- nextsong spark log;;
  df <- with_start_time spark date_convert df;;
  Ok (songplay_events df).

(** The time-table row of a start time: the start time and its hour, day
    of month, ISO week, month, year and day of week. *)
Definition time_row (tz : Z -> Z) (start_time : value) : Row :=
  [ start_time;
    on_timestamp (ts_hour tz) start_time;
    on_timestamp (ts_dayofmonth tz) start_time;
    on_timestamp (ts_weekofyear tz) start_time;
    on_timestamp (ts_month tz) start_time;
    on_timestamp (ts_year tz) start_time;
    on_timestamp (ts_dayofweek tz) start_time ].

Definition songs_columns : list string :=
  ["song_id"; "title"; "artist_id"; "year"; "duration"].

Definition artists_source_columns : list string :=
  ["artist_id"; "artist_name"; "artist_location"; "artist_latitude";
   "artist_longitude"].

Definition users_source_columns : list string :=
  ["userId"; "firstName"; "lastName"; "gender"; "level"].

(** Column names as the engine resolves them unless it is told otherwise:
    the case of the letters is ignored. *)
Definition lower_ascii (c : ascii) : ascii :=
  let n := nat_of_ascii c in
  if Nat.leb 65 n && Nat.leb n 90 then ascii_of_nat (n + 32) else c.

Fixpoint lower (s : string) : string :=
  match s with
  | EmptyString => EmptyString
  | String c s' => String (lower_ascii c) (lower s')
  end.

Definition same_name (a b : string) : bool :=
  String.eqb (lower a) (lower b).

(** Some column of [cols] has the name [c], the case of the letters
    ignored. *)
Definition resolvable (cols : list string) (c : string) : bool :=
  existsb (same_name c) cols.

(** The predicates of lines 132 to 134: those of the query, the one on the
    page (line 131) left out. *)
Definition songplays_where_without_page : list sql_cond :=
  [ SqlEq (SqlCol "event" "song") (SqlCol "song" "title");
    SqlEq (SqlCol "event" "artist") (SqlCol "song" "artist_name");
    SqlEq (SqlCol "event" "length") (SqlCol "song" "duration") ].

(** The query text of lines 118 to 135 with line 131 left out; the select
    list is the one of the source, its comma missing. *)
Definition songplays_sql_without_page : sql_text :=
  mkSqlText (text_select songplays_sql) songplays_from
    songplays_where_without_page.

(** Lines 63 to 139 with the query text of line 118 as a parameter:
    [process_log_data] is this stage at [songplays_sql]. *)
Definition process_log_data_with_query (text : sql_text)
    (globals : list (string * pyobj)) (spark : SparkSession)
    (input_data output_data : string) : run unit :=
  _ <-- lift (global_ globals "os");;
  df <-- lift (read_json spark (log_data input_data));;
  df <-- lift (nextsong spark df);;
  users <-- lift (users_table df);;
  _ <-- write_parquet [] (os_path_join output_data ["users"]) "overwrite"
          users;;
  f <-- lift (get_timestamp globals);;
  df <-- lift (with_start_time spark f df);;
  times <-- lift (time_table spark
                    (column_function globals "hour")
                    (column_function globals "dayofmonth")
                    (column_function globals "weekofyear")
                    (column_function globals "month")
                    (column_function globals "year")
                    (column_function globals "dayofweek") df);;
  _ <-- write_parquet ["year"; "month"] (os_path_join output_data ["times"])
          "overwrite" times;;
  song_df <-- lift (read_json spark (song_df_path input_data));;
  _ <-- createOrReplaceTempView "songs" song_df;;
  _ <-- lift (global_ globals "monotonically_increasing_id");;
  _ <-- createOrReplaceTempView "events" (songplay_events df);;
  views <-- get_views;;
  songplays <-- lift (spark_sql spark views text);;
  write_parquet ["year"; "month"] (os_path_join output_data ["songplays"])
    "overwrite" songplays.

End Tables.

Export Tables.

(* ================================================================== *)
(** * Sample inputs *)
(* ================================================================== *)

Module Samples.

Definition utc : Z -> Z := fun _ => 0%Z.

(** The double 180.0. *)
Definition d180 : value := VDouble (S754_finite false 6333186975989760 (-45)).

Definition catalog_columns : list string :=
  ["song_id"; "title"; "artist_id"; "artist_name"; "artist_location";
   "artist_latitude"; "artist_longitude"; "year"; "duration"].

Definition log_columns : list string :=
  ["artist"; "firstName"; "gender"; "lastName"; "length"; "level";
   "location"; "page"; "sessionId"; "song"; "ts"; "userAgent"; "userId"].

(** One song. *)
Definition catalog1 : DataFrame :=
  mkDataFrame catalog_columns
    [ [VStr "S1"; VStr "Test"; VStr "A1"; VStr "Art"; VStr "Town"; VNull;
       VNull; VInt 2000; d180] ].

(** Two records of one title, artist name and duration. *)
Definition catalog2 : DataFrame :=
  mkDataFrame catalog_columns
    [ [VStr "S1"; VStr "Test"; VStr "A1"; VStr "Art"; VStr "Town"; VNull;
       VNull; VInt 2000; d180];
      [VStr "S2"; VStr "Test"; VStr "A1"; VStr "Art"; VStr "Town"; VNull;
       VNull; VInt 2000; d180] ].

Definition play (user : string) (ts : Z) : Row :=
  [VStr "Art"; VStr "Ann"; VStr "F"; VStr "Lee"; d180; VStr "free";
   VStr "Town"; VStr "NextSong"; VInt 5; VStr "Test"; VInt ts; VStr "UA";
   VStr user].

Definition visit (user : string) (ts : Z) : Row :=
  [VNull; VStr "Bob"; VStr "M"; VStr "Ray"; VNull; VStr "paid";
   VStr "Town"; VStr "Home"; VInt 6; VNull; VInt ts; VStr "UA"; VStr user].

(** One song play. *)
Definition log1 : DataFrame :=
  mkDataFrame log_columns [play "1" 1542241826796].

(** Song plays of user 1 and a page view of user 2. *)
Definition log_mixed : DataFrame :=
  mkDataFrame log_columns
    [play "1" 1542241826796; visit "2" 1542242481796;
     play "1" 1542242741796].

(** No song play at all. *)
Definition log_no_play : DataFrame :=
  mkDataFrame log_columns [visit "2" 1542242481796; visit "3" 1542242481799].

(** Modelled from the spec: the function [date_convert] that line 92 names
    and the script does not define.  The spec has it divide the
    millisecond count by 1000 and read the result as seconds since the
    epoch; in microseconds, the unit of a timestamp, that is the count
    times 1000. *)
Definition date_convert_spec (v : value) : value :=
  match v with
  | VInt ms => VTimestamp (ms * 1000)
  | _ => VNull
  end.

(** A storage that holds [catalog] and [log] as JSON text: a read in any
    other format fails. *)
Definition json_storage (catalog log : DataFrame) (r : read_request)
    : py DataFrame :=
  if String.eqb (source_format r) "json" then
    if String.eqb (load_path r) (log_data input_data) then Ok log
    else Ok catalog
  else Raise (AnalysisException "not a Parquet file").

(** A storage that gives [catalog] and [log] to a read in any format. *)
Definition any_storage (catalog log : DataFrame) (r : read_request)
    : py DataFrame :=
  if String.eqb (load_path r) (log_data input_data) then Ok log
  else Ok catalog.

Definition json_cluster : cluster :=
  mkCluster utc (json_storage catalog1 log1).

Definition any_cluster : cluster :=
  mkCluster utc (any_storage catalog2 log_mixed).

Definition empty_world : world := mkWorld [] [].

(** The session of the script on the storage that gives its frames to any
    read. *)
Definition sample_spark : SparkSession := create_spark_session any_cluster.

End Samples.

Export Samples.

(* ================================================================== *)
(** * What a run does to the storage and the views *)
(* ================================================================== *)

Module Effects.

(** A sequence of overwriting writes, the first one first. *)
Fixpoint apply_puts {A : Type} (ps l : list (string * A))
    : list (string * A) :=
  match ps with
  | [] => l
  | (k, a) :: ps' => apply_puts ps' (put k a l)
  end.

(** The run [m] does the writes [ps] to the storage and [vs] to the views,
    whatever they held, and ends with [r]. *)
Definition effect {A : Type} (m : run A) (ps : list (string * stored))
    (vs : list (string * DataFrame)) (r : py A) : Prop :=
  forall w,
    m w = (mkWorld (apply_puts ps (outputs w)) (apply_puts vs (temp_views w)),
           r).

(** [l1] is [l2] with some elements left out. *)
Inductive subseq {A : Type} : list A -> list A -> Prop :=
| subseq_nil : forall l, subseq [] l
| subseq_skip : forall x l1 l2, subseq l1 l2 -> subseq l1 (x :: l2)
| subseq_take : forall x l1 l2, subseq l1 l2 -> subseq (x :: l1) (x :: l2).

Definition raises {A : Type} (r : py A) : Prop := exists e, r = Raise e.

Definition any_end {A : Type} (r : py A) : Prop := True.

(** The run [m] writes, in this order, under some of [paths] and some of
    [views], nowhere else, and its end satisfies [Q]. *)
Definition stage_effect {A : Type} (Q : py A -> Prop)
    (paths views : list string) (m : run A) : Prop :=
  exists ps vs r,
    effect m ps vs r
    /\ Q r
    /\ subseq (map fst ps) paths
    /\ subseq (map fst vs) views.

(** The module's names with [date_convert] bound to a function and
    [dayofweek] to the function of that name of [pyspark.sql.functions]. *)
Definition globals_bound (f : value -> value) : list (string * pyobj) :=
  ("dayofweek", PySqlFunction "dayofweek") :: globals_with_date_convert f.

(** The paths of lines 48, 60, 89, 108 and 139. *)
Definition songs_path (output : string) : string :=
  os_path_join output ["songs"].
Definition artists_path (output : string) : string :=
  os_path_join output ["artists"].
Definition users_path (output : string) : string :=
  os_path_join output ["users"].
Definition times_path (output : string) : string :=
  os_path_join output ["times"].
Definition songplays_path (output : string) : string :=
  os_path_join output ["songplays"].

(** The log frame with only its NextSong rows. *)
Definition only_nextsong (log : DataFrame) : DataFrame :=
  mkDataFrame (columns log)
    (List.filter (page_is_nextsong (columns log)) (rows log)).

(** A catalog frame with the songs columns and no artist name. *)
Definition catalog_no_artist_name : DataFrame :=
  mkDataFrame ["song_id"; "title"; "artist_id"; "year"; "duration"]
    [[VStr "S1"; VStr "Test"; VStr "A1"; VInt 2000; d180]].

(** A catalog frame without titles. *)
Definition catalog_no_title : DataFrame :=
  mkDataFrame ["song_id"; "artist_id"; "year"; "duration"]
    [[VStr "S1"; VStr "A1"; VInt 2000; d180]].

(** A log frame without a page column. *)
Definition log_no_page : DataFrame :=
  mkDataFrame ["userId"; "ts"] [[VStr "1"; VInt 1542241826796]].

(** A catalog frame with all its columns and no row. *)
Definition catalog_empty : DataFrame := mkDataFrame catalog_columns [].

(** The songs table of [catalog2]. *)
Definition songs_of_catalog2 : DataFrame :=
  mkDataFrame songs_columns
    [ [VStr "S1"; VStr "Test"; VStr "A1"; VInt 2000; d180];
      [VStr "S2"; VStr "Test"; VStr "A1"; VInt 2000; d180] ].

(** The session of the script on a storage that gives these two frames to
    any read. *)
Definition spark_of (catalog log : DataFrame) : SparkSession :=
  create_spark_session (mkCluster utc (any_storage catalog log)).

(** A world that already holds tables and views. *)
Definition used_world : world :=
  mkWorld
    [("s3a://datalake-udacity-haipd4/users", mkStored [] catalog1);
     ("s3a://datalake-udacity-haipd4/other", mkStored ["year"] catalog2)]
    [("songs", log1)].

(** A catalog frame that holds two records under one song id. *)
Definition catalog_dup : DataFrame :=
  mkDataFrame catalog_columns
    [ [VStr "S1"; VStr "Test"; VStr "A1"; VStr "Art"; VStr "Town"; VNull;
       VNull; VInt 2000; d180];
      [VStr "S1"; VStr "Test again"; VStr "A1"; VStr "Art"; VStr "Town";
       VNull; VNull; VInt 2001; d180];
      [VStr "S2"; VStr "Other"; VStr "A2"; VStr "Band"; VStr "City"; VNull;
       VNull; VInt 1999; d180] ].

(** A catalog frame whose title column is spelled in capitals. *)
Definition catalog_capital_title : DataFrame :=
  mkDataFrame ["song_id"; "TITLE"; "artist_id"; "year"; "duration"]
    [[VStr "S1"; VStr "Test"; VStr "A1"; VInt 2000; d180]].

(** The users table of a log without song plays, and the two tables of a
    catalog without records. *)
Definition no_users : DataFrame :=
  mkDataFrame ["user_id"; "first_name"; "last_name"; "gender"; "level"] [].

Definition no_songs : DataFrame := mkDataFrame songs_columns [].

Definition no_artists : DataFrame :=
  mkDataFrame ["artist_id"; "name"; "location"; "latitude"; "longitude"] [].

End Effects.

Export Effects.

(* ================================================================== *)
(** * Facts about the engine *)
(* ================================================================== *)

Section EqualityFacts.

Lemma double_eqb_eq (x y : spec_float) : double_eqb x y = true <-> x = y.
Proof.
  destruct x as [a|a| |s m e], y as [b|b| |s' m' e']; simpl;
    try (split; [discriminate | congruence]).
  - rewrite Bool.eqb_true_iff. split; congruence.
  - rewrite Bool.eqb_true_iff. split; congruence.
  - split; reflexivity.
  - rewrite !andb_true_iff, Bool.eqb_true_iff, Pos.eqb_eq, Z.eqb_eq.
    split; [intros [[-> ->] ->]; reflexivity | intros H; inversion H; auto].
Qed.

Lemma value_eqb_eq (a b : value) : value_eqb a b = true <-> a = b.
Proof.
  destruct a, b; simpl; try (split; [discriminate | congruence]).
  - split; reflexivity.
  - rewrite Bool.eqb_true_iff. split; congruence.
  - rewrite Z.eqb_eq. split; congruence.
  - rewrite double_eqb_eq. split; congruence.
  - rewrite String.eqb_eq. split; congruence.
  - rewrite Z.eqb_eq. split; congruence.
Qed.

Lemma list_eqb_eq (k1 k2 : list value) : list_eqb k1 k2 = true <-> k1 = k2.
Proof.
  revert k2. induction k1 as [|a k1 IH]; intros [|b k2]; simpl;
    try (split; [discriminate | congruence]).
  - split; reflexivity.
  - rewrite andb_true_iff, value_eqb_eq, IH. split.
    + intros [-> ->]. reflexivity.
    + intros H. inversion H. auto.
Qed.

Lemma seen_key_In (k : list value) (seen : list (list value)) :
  existsb (list_eqb k) seen = true <-> In k seen.
Proof.
  rewrite existsb_exists. split.
  - intros [k' [Hin Heq]]. apply list_eqb_eq in Heq. subst. exact Hin.
  - intros Hin. exists k. split; [exact Hin | apply list_eqb_eq; reflexivity].
Qed.

Lemma same_value_norm (a b : value) :
  same_value a b = true <-> norm_value a = norm_value b.
Proof. unfold same_value. apply value_eqb_eq. Qed.

End EqualityFacts.

Section DropDuplicatesFacts.

Variable key : Row -> list value.

Lemma drop_dups_In (rs : list Row) :
  forall seen r, In r (drop_dups key seen rs) ->
    In r rs /\ ~ In (key r) seen.
Proof.
  induction rs as [|r0 rs IH]; intros seen r; simpl.
  - intros [].
  - destruct (existsb (list_eqb (key r0)) seen) eqn:Hseen.
    + intros Hin. destruct (IH _ _ Hin) as [H1 H2]. auto.
    + intros [<- | Hin].
      * split; [left; reflexivity |].
        intro Hk. apply seen_key_In in Hk. congruence.
      * destruct (IH _ _ Hin) as [H1 H2]. split; [right; exact H1 |].
        intro Hk. apply H2. right. exact Hk.
Qed.

Lemma drop_dups_NoDup (rs : list Row) :
  forall seen, NoDup (map key (drop_dups key seen rs)).
Proof.
  induction rs as [|r0 rs IH]; intros seen; simpl.
  - constructor.
  - destruct (existsb (list_eqb (key r0)) seen) eqn:Hseen.
    + apply IH.
    + simpl. constructor; [| apply IH].
      intro Hin. apply in_map_iff in Hin. destruct Hin as [r [Hk Hr]].
      apply drop_dups_In in Hr. destruct Hr as [_ Hnot].
      apply Hnot. left. symmetry. exact Hk.
Qed.

Lemma drop_dups_complete (rs : list Row) :
  forall seen r, In r rs ->
    In (key r) seen \/ In (key r) (map key (drop_dups key seen rs)).
Proof.
  induction rs as [|r0 rs IH]; intros seen r; simpl.
  - intros [].
  - intros [<- | Hin].
    + destruct (existsb (list_eqb (key r0)) seen) eqn:Hseen.
      * left. apply seen_key_In. exact Hseen.
      * right. simpl. left. reflexivity.
    + destruct (existsb (list_eqb (key r0)) seen) eqn:Hseen.
      * apply IH. exact Hin.
      * destruct (IH (key r0 :: seen) r Hin) as [[Heq | Hs] | Hd].
        -- right. simpl. left. exact Heq.
        -- left. exact Hs.
        -- right. simpl. right. exact Hd.
Qed.

End DropDuplicatesFacts.

Section CellFacts.

Lemma index_of_Some_In (c : string) (cols : list string) :
  has_column cols c = true <-> exists i, index_of c cols = Some i.
Proof.
  unfold has_column. induction cols as [|c' cols IH]; simpl.
  - split; [discriminate | intros [i H]; discriminate].
  - destruct (String.eqb c c').
    + split; [intros _; exists 0%nat; reflexivity | reflexivity].
    + simpl. rewrite IH. split.
      * intros [i ->]. exists (S i). reflexivity.
      * intros [i H]. destruct (index_of c cols) as [j|]; [|discriminate].
        exists j. reflexivity.
Qed.

Lemma has_column_In (cols : list string) (c : string) :
  has_column cols c = true <-> In c cols.
Proof.
  unfold has_column. rewrite existsb_exists. split.
  - intros [c' [Hin Heq]]. apply String.eqb_eq in Heq. subst. exact Hin.
  - intros Hin. exists c. split; [exact Hin | apply String.eqb_refl].
Qed.

(** Reading a projected row under a projected column gives the projected
    cell. *)
Lemma cell_map (f : string -> value) (cs : list string) (c : string) :
  In c cs -> cell cs (map f cs) c = f c.
Proof.
  unfold cell. induction cs as [|c' cs IH]; simpl.
  - intros [].
  - intros Hin. destruct (String.eqb c c') eqn:Heq.
    + apply String.eqb_eq in Heq. subst. reflexivity.
    + destruct Hin as [-> | Hin]; [rewrite String.eqb_refl in Heq; discriminate |].
      specialize (IH Hin). destruct (index_of c cs) as [i|]; simpl in *.
      * exact IH.
      * exact IH.
Qed.

End CellFacts.

Section SelectFacts.

Lemma NoDup_singleton_map {A : Type} (g : A -> value) (l : list A) :
  NoDup (map (fun r => [g r]) l) -> NoDup (map g l).
Proof.
  intros H. rewrite <- (map_map g (fun v => [v])) in H.
  apply NoDup_map_inv in H. exact H.
Qed.

(** Projection followed by de-duplication on one of the projected columns:
    the columns are the projected ones, no key occurs twice, the keys are
    those of the input, and each row is the projection of an input row. *)
Lemma select_dropDuplicates (cs : list string) (k : string)
    (df : DataFrame) :
  has_columns cs df = true -> In k cs ->
  exists t,
    (t0 <- select cs df;; dropDuplicates [k] t0) = Ok t
    /\ columns t = cs
    /\ NoDup (map (key_of t k) (rows t))
    /\ (forall v, In v (map (key_of t k) (rows t))
                  <-> In v (map (key_of df k) (rows df)))
    /\ (forall r, In r (rows t) ->
          exists r0, In r0 (rows df) /\ r = map (cell (columns df) r0) cs).
Proof.
  intros Hcs Hk. unfold select. rewrite Hcs. simpl.
  unfold dropDuplicates, has_columns. simpl.
  assert (Hhas : has_column cs k = true) by (apply has_column_In; exact Hk).
  rewrite Hhas. simpl.
  set (proj := fun r : Row => map (cell (columns df) r) cs).
  set (key := row_key cs [k]).
  eexists. split; [reflexivity |]. simpl.
  assert (Hkey : forall r0, key (proj r0) = [key_of df k r0]).
  { intros r0. unfold key, row_key, key_of, proj. simpl.
    rewrite cell_map by exact Hk. reflexivity. }
  split; [reflexivity |]. split; [| split].
  - apply NoDup_singleton_map with (g := fun r => norm_value (cell cs r k)).
    apply (drop_dups_NoDup key).
  - intros v. unfold key_of at 1. simpl. split.
    + intros Hin. apply in_map_iff in Hin. destruct Hin as [r [Hv Hr]].
      apply drop_dups_In in Hr. destruct Hr as [Hr _].
      apply in_map_iff in Hr. destruct Hr as [r0 [Hp Hr0]].
      apply in_map_iff. exists r0. split; [| exact Hr0].
      pose proof (Hkey r0) as Hk0. rewrite Hp in Hk0.
      unfold key, row_key in Hk0. simpl in Hk0. congruence.
    + intros Hin. apply in_map_iff in Hin. destruct Hin as [r0 [Hv Hr0]].
      destruct (drop_dups_complete key (map proj (rows df)) [] (proj r0))
        as [[] | Hd].
      { apply in_map. exact Hr0. }
      apply in_map_iff in Hd. destruct Hd as [r [Hkr Hr]].
      apply in_map_iff. exists r. split; [| exact Hr].
      rewrite Hkey in Hkr. unfold key, row_key in Hkr. simpl in Hkr.
      congruence.
  - intros r Hr. apply drop_dups_In in Hr. destruct Hr as [Hr _].
    apply in_map_iff in Hr. destruct Hr as [r0 [Hp Hr0]].
    exists r0. split; [exact Hr0 | symmetry; exact Hp].
Qed.

End SelectFacts.

Section StoreFacts.

Context {A : Type}.

Lemma lookup_remove_key_other (k k' : string) (l : list (string * A)) :
  k <> k' -> lookup k (remove_key k' l) = lookup k l.
Proof.
  intros Hne. induction l as [|[k0 a] l IH]; simpl.
  - reflexivity.
  - destruct (String.eqb k' k0) eqn:E'.
    + apply String.eqb_eq in E'. subst k0.
      destruct (String.eqb k k') eqn:E.
      * apply String.eqb_eq in E. contradiction.
      * exact IH.
    + simpl. rewrite IH. reflexivity.
Qed.

Lemma lookup_put_same (k : string) (a : A) (l : list (string * A)) :
  lookup k (put k a l) = Some a.
Proof. unfold put. simpl. rewrite String.eqb_refl. reflexivity. Qed.

Lemma lookup_put_other (k k' : string) (a : A) (l : list (string * A)) :
  k <> k' -> lookup k (put k' a l) = lookup k l.
Proof.
  intros Hne. unfold put. simpl.
  destruct (String.eqb k k') eqn:E.
  - apply String.eqb_eq in E. contradiction.
  - apply lookup_remove_key_other. exact Hne.
Qed.

End StoreFacts.

Section PathFacts.

Lemma append_inj_l (p a b : string) :
  String.append p a = String.append p b -> a = b.
Proof.
  induction p as [|c p IH]; simpl; intros H.
  - exact H.
  - inversion H. auto.
Qed.

(** Two different components under one directory are two different
    paths. *)
Lemma os_path_join_one_neq (o a b : string) :
  startswith_sep a = false -> startswith_sep b = false -> a <> b ->
  os_path_join o [a] <> os_path_join o [b].
Proof.
  intros Ha Hb Hne. unfold os_path_join. simpl. unfold join_step.
  rewrite Ha, Hb.
  destruct (is_empty o || endswith_sep o); intros H.
  - apply append_inj_l in H. contradiction.
  - apply append_inj_l in H. apply append_inj_l in H. contradiction.
Qed.

End PathFacts.

Section RunFacts.

Lemma bind_lift_Ok {A B : Type} (m : py A) (a : A) (k : A -> run B)
    (w : world) :
  m = Ok a -> bind_run (lift m) k w = k a w.
Proof. intros ->. reflexivity. Qed.

Lemma bind_lift_Raise {A B : Type} (m : py A) (e : exn) (k : A -> run B)
    (w : world) :
  m = Raise e -> bind_run (lift m) k w = (w, Raise e).
Proof. intros ->. reflexivity. Qed.

(** A write in overwrite mode puts the table at the path, whatever the path
    held. *)
Lemma write_parquet_overwrite (parts : list string) (path : string)
    (df : DataFrame) (w : world) :
  forallb (has_column (columns df)) parts = true ->
  write_parquet parts path "overwrite" df w
  = (mkWorld (put path (mkStored parts df) (outputs w)) (temp_views w),
     Ok tt).
Proof.
  intros H. unfold write_parquet.
  change (save_mode_of "overwrite") with (Ok Overwrite).
  rewrite H. reflexivity.
Qed.

(** Two runs that start alike and go on alike end alike. *)
Lemma bind_run_ext {A B : Type} (m : run A) (k1 k2 : A -> run B)
    (w : world) :
  (forall a w', m w = (w', Ok a) -> k1 a w' = k2 a w') ->
  bind_run m k1 w = bind_run m k2 w.
Proof.
  intros H. unfold bind_run.
  destruct (m w) as [w' [a | e]]; [apply H; reflexivity | reflexivity].
Qed.

End RunFacts.

(* ================================================================== *)
(** * The catalog stage *)
(* ================================================================== *)

Section CatalogStage.

Variable spark : SparkSession.
Variables input output : string.
Variable w : world.
Variable df : DataFrame.

Hypothesis catalog_read : read_load spark (song_data input) = Ok df.

Lemma songs_path_neq_artists_path :
  os_path_join output ["songs"] <> os_path_join output ["artists"].
Proof.
  apply os_path_join_one_neq; [reflexivity | reflexivity | discriminate].
Qed.

(** X17.  When the read of line 40 gives a frame with the five songs
    columns, a Parquet catalog, the songs table has the five projected
    columns, one row per distinct song id of the frame, each row the
    projection of a row of the frame; the stage leaves it at
    [output/songs], partitioned by year and artist id, whatever that path
    held before. *)
Theorem songs_table_one_row_per_song_id :
  has_columns songs_columns df = true ->
  exists t,
    songs_table df = Ok t
    /\ columns t = songs_columns
    /\ NoDup (map (key_of t "song_id") (rows t))
    /\ (forall k, In k (map (key_of t "song_id") (rows t))
                  <-> In k (map (key_of df "song_id") (rows df)))
    /\ (forall r, In r (rows t) ->
          exists r0, In r0 (rows df)
            /\ forall c, In c songs_columns ->
                 cell (columns t) r c = cell (columns df) r0 c)
    /\ lookup (os_path_join output ["songs"])
         (outputs (fst (process_song_data etl_globals spark input output w)))
       = Some (mkStored ["year"; "artist_id"] t).
Proof.
  intros Hcols.
  destruct (select_dropDuplicates songs_columns "song_id" df Hcols)
    as [t [Ht [Hc [Hnd [Hkeys Hrows]]]]].
  { simpl. auto. }
  exists t. split; [exact Ht |]. split; [exact Hc |].
  split; [exact Hnd |]. split; [exact Hkeys |]. split.
  - intros r Hr. destruct (Hrows r Hr) as [r0 [Hr0 ->]].
    exists r0. split; [exact Hr0 |]. intros c Hin.
    rewrite Hc. apply cell_map. exact Hin.
  - unfold process_song_data.
    change (global_ etl_globals "os") with (Ok PyModule).
    rewrite (bind_lift_Ok _ PyModule) by reflexivity.
    rewrite (bind_lift_Ok _ df) by exact catalog_read.
    rewrite (bind_lift_Ok _ t) by exact Ht.
    unfold bind_run at 1.
    rewrite write_parquet_overwrite by (rewrite Hc; reflexivity).
    destruct (artists_table df) as [a | e] eqn:Ha.
    + rewrite (bind_lift_Ok _ a) by reflexivity.
      rewrite write_parquet_overwrite by reflexivity.
      cbn [fst outputs].
      rewrite lookup_put_other by apply songs_path_neq_artists_path.
      apply lookup_put_same.
    + rewrite (bind_lift_Raise _ e) by reflexivity.
      cbn [fst outputs]. apply lookup_put_same.
Qed.

(** X18.  When the read of line 40 gives a frame with the songs and the
    artists columns, a Parquet catalog, the artists table has the five
    columns under their new names, one row per distinct artist id of the
    frame, each row holding under its new names the cells of a row of the
    frame; the stage leaves it at [output/artists], unpartitioned, whatever
    that path held before. *)
Theorem artists_table_one_row_per_artist_id :
  has_columns songs_columns df = true ->
  has_columns artists_source_columns df = true ->
  exists t,
    artists_table df = Ok t
    /\ columns t = ["artist_id"; "name"; "location"; "latitude"; "longitude"]
    /\ NoDup (map (key_of t "artist_id") (rows t))
    /\ (forall k, In k (map (key_of t "artist_id") (rows t))
                  <-> In k (map (key_of df "artist_id") (rows df)))
    /\ (forall r, In r (rows t) ->
          exists r0, In r0 (rows df)
            /\ cell (columns t) r "artist_id"
               = cell (columns df) r0 "artist_id"
            /\ cell (columns t) r "name" = cell (columns df) r0 "artist_name"
            /\ cell (columns t) r "location"
               = cell (columns df) r0 "artist_location"
            /\ cell (columns t) r "latitude"
               = cell (columns df) r0 "artist_latitude"
            /\ cell (columns t) r "longitude"
               = cell (columns df) r0 "artist_longitude")
    /\ lookup (os_path_join output ["artists"])
         (outputs (fst (process_song_data etl_globals spark input output w)))
       = Some (mkStored [] t).
Proof.
  intros Hsongs Hcols.
  destruct (select_dropDuplicates artists_source_columns "artist_id" df Hcols)
    as [t0 [Ht [Hc [Hnd [Hkeys Hrows]]]]].
  { simpl. auto. }
  unfold artists_source_columns in Ht.
  assert (Hart : artists_table df
                 = Ok (mkDataFrame
                         ["artist_id"; "name"; "location"; "latitude";
                          "longitude"] (rows t0))).
  { unfold artists_table.
    destruct (select _ df) as [t1 | e]; [| discriminate].
    simpl in Ht |- *. rewrite Ht. simpl. unfold withColumnRenamed. simpl.
    rewrite Hc. reflexivity. }
  eexists. split; [exact Hart |]. simpl.
  split; [reflexivity |]. split; [| split; [| split]].
  - unfold key_of in Hnd |- *. rewrite Hc in Hnd. exact Hnd.
  - intros k. rewrite <- Hkeys. unfold key_of. rewrite Hc. reflexivity.
  - intros r Hr. destruct (Hrows r Hr) as [r0 [Hr0 ->]].
    exists r0. split; [exact Hr0 |]. repeat split; reflexivity.
  - destruct (select_dropDuplicates songs_columns "song_id" df Hsongs)
      as [s [Hs [Hsc _]]].
    { simpl. auto. }
    unfold process_song_data.
    change (global_ etl_globals "os") with (Ok PyModule).
    rewrite (bind_lift_Ok _ PyModule) by reflexivity.
    rewrite (bind_lift_Ok _ df) by exact catalog_read.
    rewrite (bind_lift_Ok _ s) by exact Hs.
    unfold bind_run at 1.
    rewrite write_parquet_overwrite by (rewrite Hsc; reflexivity).
    rewrite (bind_lift_Ok _ _ _ _ Hart).
    rewrite write_parquet_overwrite by reflexivity.
    cbn [fst outputs]. apply lookup_put_same.
Qed.

End CatalogStage.

(* ================================================================== *)
(** * The event stage: the filter and the users table *)
(* ================================================================== *)

Section EventStage.

Variable spark : SparkSession.
Variable log : DataFrame.

(** Line 78 keeps the rows whose page is NextSong, in their order. *)
Lemma nextsong_Ok :
  has_column (columns log) "page" = true ->
  nextsong spark log
  = Ok (mkDataFrame (columns log)
          (List.filter (page_is_nextsong (columns log)) (rows log))).
Proof.
  intros H. unfold nextsong, attr. rewrite H. simpl.
  unfold filter. simpl. rewrite H. reflexivity.
Qed.

Lemma nextsong_Raise :
  has_column (columns log) "page" = false ->
  nextsong spark log = Raise (AttributeError "page").
Proof. intros H. unfold nextsong, attr. rewrite H. reflexivity. Qed.

(** C6.  The users table has the five columns under their new names, one
    row per distinct user id among the NextSong rows of the log frame, each
    row holding the cells of such a row; a user id that only rows of other
    pages carry has no row. *)
Theorem users_table_one_row_per_nextsong_user :
  has_columns ("page" :: users_source_columns) log = true ->
  exists df t,
    nextsong spark log = Ok df
    /\ users_table df = Ok t
    /\ columns t = ["user_id"; "first_name"; "last_name"; "gender"; "level"]
    /\ NoDup (map (key_of t "user_id") (rows t))
    /\ (forall k, In k (map (key_of t "user_id") (rows t))
          <-> exists e, In e (rows log)
                /\ page_is_nextsong (columns log) e = true
                /\ key_of log "userId" e = k)
    /\ (forall r, In r (rows t) ->
          exists e, In e (rows log)
            /\ page_is_nextsong (columns log) e = true
            /\ cell (columns t) r "user_id" = cell (columns log) e "userId"
            /\ cell (columns t) r "first_name"
               = cell (columns log) e "firstName"
            /\ cell (columns t) r "last_name"
               = cell (columns log) e "lastName"
            /\ cell (columns t) r "gender" = cell (columns log) e "gender"
            /\ cell (columns t) r "level" = cell (columns log) e "level")
    /\ (forall k,
          (forall e, In e (rows log) -> key_of log "userId" e = k ->
             page_is_nextsong (columns log) e = false) ->
          ~ In k (map (key_of t "user_id") (rows t))).
Proof.
  intros Hcols. unfold has_columns in Hcols. simpl in Hcols.
  apply andb_true_iff in Hcols. destruct Hcols as [Hpage Hcols].
  set (df := mkDataFrame (columns log)
               (List.filter (page_is_nextsong (columns log)) (rows log))).
  destruct (select_dropDuplicates users_source_columns "userId" df)
    as [t0 [Ht [Hc [Hnd [Hkeys Hrows]]]]].
  { exact Hcols. }
  { simpl. auto. }
  unfold users_source_columns in Ht.
  assert (Husers : users_table df
                   = Ok (mkDataFrame
                           ["user_id"; "first_name"; "last_name"; "gender";
                            "level"] (rows t0))).
  { unfold users_table.
    destruct (select _ df) as [t1 | e]; [| discriminate].
    simpl in Ht |- *. rewrite Ht. simpl. unfold withColumnRenamed. simpl.
    rewrite Hc. reflexivity. }
  assert (Hk : forall k, In k (map (key_of t0 "userId") (rows t0))
                 <-> exists e, In e (rows log)
                       /\ page_is_nextsong (columns log) e = true
                       /\ key_of log "userId" e = k).
  { intros k. rewrite Hkeys. split.
    - intros Hin. apply in_map_iff in Hin. destruct Hin as [e [He Hin]].
      apply filter_In in Hin. destruct Hin as [Hin Hp].
      exists e. auto.
    - intros [e [Hin [Hp He]]]. apply in_map_iff. exists e.
      split; [exact He |]. apply filter_In. auto. }
  exists df. eexists. split; [apply nextsong_Ok; exact Hpage |].
  split; [exact Husers |]. simpl. split; [reflexivity |].
  split; [| split; [| split]].
  - unfold key_of in Hnd |- *. rewrite Hc in Hnd. exact Hnd.
  - intros k. rewrite <- Hk. unfold key_of. rewrite Hc. reflexivity.
  - intros r Hr. destruct (Hrows r Hr) as [e [He ->]].
    apply filter_In in He. destruct He as [He Hp].
    exists e. split; [exact He |]. split; [exact Hp |].
    repeat split; reflexivity.
  - intros k Hnone Hin.
    assert (Hin' : In k (map (key_of t0 "userId") (rows t0))).
    { unfold key_of in Hin |- *. rewrite Hc. exact Hin. }
    apply Hk in Hin'. destruct Hin' as [e [He [Hp Hke]]].
    rewrite (Hnone e He Hke) in Hp. discriminate.
Qed.

End EventStage.

(* ================================================================== *)
(** * Adding a column *)
(* ================================================================== *)

Section WithColumnFacts.

Lemma nth_set_nth_same (i : nat) (v : value) (r : Row) :
  nth i (set_nth i v r) VNull = v.
Proof.
  unfold set_nth.
  assert (Hlen : List.length (firstn i (r ++ repeat VNull i)) = i).
  { rewrite length_firstn, length_app, repeat_length. lia. }
  rewrite app_nth2 by lia. rewrite Hlen, Nat.sub_diag. reflexivity.
Qed.

Lemma nth_set_nth_other (i j : nat) (v : value) (r : Row) :
  j <> i -> nth j (set_nth i v r) VNull = nth j r VNull.
Proof.
  intros Hne. unfold set_nth.
  assert (Hlen : List.length (firstn i (r ++ repeat VNull i)) = i).
  { rewrite length_firstn, length_app, repeat_length. lia. }
  destruct (Nat.lt_ge_cases j i) as [Hlt | Hge].
  - rewrite app_nth1 by lia. rewrite nth_firstn.
    destruct (Nat.ltb_spec j i) as [_ | Hbad]; [| lia].
    destruct (Nat.lt_ge_cases j (List.length r)) as [Hin | Hout].
    + apply app_nth1. exact Hin.
    + rewrite app_nth2 by lia. rewrite (nth_overflow r) by lia.
      destruct (Nat.lt_ge_cases (j - List.length r) i) as [H1 | H1].
      * apply nth_repeat_lt. exact H1.
      * apply nth_overflow. rewrite repeat_length. exact H1.
  - rewrite app_nth2 by lia. rewrite Hlen.
    destruct (j - i)%nat as [|d] eqn:Hd; [lia |].
    cbn [nth]. rewrite nth_skipn. f_equal. lia.
Qed.

Lemma index_of_lt (c : string) (cols : list string) (i : nat) :
  index_of c cols = Some i -> (i < List.length cols)%nat.
Proof.
  revert i. induction cols as [|c' cols IH]; simpl; intros i H.
  - discriminate.
  - destruct (String.eqb c c').
    + inversion H. lia.
    + destruct (index_of c cols) as [j|]; [| discriminate].
      inversion H. specialize (IH j eq_refl). lia.
Qed.

Lemma index_of_app_Some (c : string) (cols more : list string) (i : nat) :
  index_of c cols = Some i -> index_of c (cols ++ more) = Some i.
Proof.
  revert i. induction cols as [|c' cols IH]; simpl; intros i H.
  - discriminate.
  - destruct (String.eqb c c'); [exact H |].
    destruct (index_of c cols) as [j|]; [| discriminate].
    rewrite (IH j eq_refl). exact H.
Qed.

Lemma index_of_app_None (c name : string) (cols : list string) :
  index_of c cols = None ->
  index_of c (cols ++ [name])
  = if String.eqb c name then Some (List.length cols) else None.
Proof.
  induction cols as [|c' cols IH]; simpl; intros H.
  - destruct (String.eqb c name); reflexivity.
  - destruct (String.eqb c c'); [discriminate |].
    destruct (index_of c cols) as [j|]; [discriminate |].
    rewrite (IH eq_refl). destruct (String.eqb c name); reflexivity.
Qed.

Lemma has_column_index_of (cols : list string) (c : string) :
  has_column cols c = false <-> index_of c cols = None.
Proof.
  pose proof (index_of_Some_In c cols) as H.
  destruct (has_column cols c), (index_of c cols) as [i|]; split; intros E;
    try reflexivity; try discriminate.
  - destruct H as [H _]. destruct (H eq_refl) as [j Hj]. discriminate.
  - destruct H as [_ H]. assert (true = false) by (rewrite <- H; eauto).
    discriminate.
Qed.

(** The new cell of the added column. *)
Lemma cell_columns_with_same (cols : list string) (name : string)
    (v : value) (r : Row) :
  cell (columns_with cols name) (set_nth (column_slot cols name) v r) name
  = v.
Proof.
  unfold cell, columns_with, column_slot.
  destruct (has_column cols name) eqn:Hhas.
  - apply index_of_Some_In in Hhas. destruct Hhas as [i Hi].
    rewrite Hi. apply nth_set_nth_same.
  - apply has_column_index_of in Hhas. rewrite Hhas.
    rewrite (index_of_app_None _ _ _ Hhas), String.eqb_refl.
    apply nth_set_nth_same.
Qed.

(** The cells of the other columns stay. *)
Lemma cell_columns_with_other (cols : list string) (name c : string)
    (v : value) (r : Row) :
  c <> name ->
  cell (columns_with cols name) (set_nth (column_slot cols name) v r) c
  = cell cols r c.
Proof.
  intros Hne. unfold cell, columns_with, column_slot.
  assert (Hneb : String.eqb c name = false) by (apply String.eqb_neq; exact Hne).
  destruct (has_column cols name) eqn:Hhas.
  - apply index_of_Some_In in Hhas. destruct Hhas as [i Hi]. rewrite Hi.
    destruct (index_of c cols) as [j|] eqn:Hj; [| reflexivity].
    apply nth_set_nth_other. intros ->.
    clear - Hi Hj Hne. revert i Hi Hj.
    induction cols as [|c' cols IH]; simpl; intros i Hi Hj; [discriminate |].
    destruct (String.eqb name c') eqn:E1, (String.eqb c c') eqn:E2.
    + apply String.eqb_eq in E1, E2. congruence.
    + destruct (index_of c cols); inversion Hi; subst; discriminate.
    + destruct (index_of name cols); inversion Hj; subst; discriminate.
    + destruct (index_of name cols) as [a|] eqn:Ea; [| discriminate].
      destruct (index_of c cols) as [b|] eqn:Eb; [| discriminate].
      simpl in Hi, Hj. inversion Hi. inversion Hj. subst.
      apply (IH a eq_refl). f_equal. lia.
  - apply has_column_index_of in Hhas. rewrite Hhas.
    destruct (index_of c cols) as [j|] eqn:Hj.
    + rewrite (index_of_app_Some _ _ _ _ Hj).
      apply nth_set_nth_other. apply index_of_lt in Hj. lia.
    + rewrite (index_of_app_None _ _ _ Hj), Hneb. reflexivity.
Qed.

Lemma has_column_columns_with (cols : list string) (name c : string) :
  has_column (columns_with cols name) c
  = has_column cols c || String.eqb c name.
Proof.
  unfold columns_with. destruct (has_column cols name) eqn:Hhas.
  - destruct (String.eqb c name) eqn:E.
    + apply String.eqb_eq in E. subst. rewrite Hhas. reflexivity.
    + rewrite orb_false_r. reflexivity.
  - unfold has_column. rewrite existsb_app. simpl.
    rewrite orb_false_r. reflexivity.
Qed.

Lemma has_column_columns_with_old (cols : list string) (name c : string) :
  has_column cols c = true -> has_column (columns_with cols name) c = true.
Proof. intros H. rewrite has_column_columns_with, H. reflexivity. Qed.

End WithColumnFacts.

(* ================================================================== *)
(** * The events view and the join *)
(* ================================================================== *)

Section ListFacts.

Context {A B : Type}.

Lemma flat_map_singleton (g : A -> B) (l : list A) :
  flat_map (fun a => [g a]) l = map g l.
Proof. induction l as [|a l IH]; simpl; congruence. Qed.

Lemma filter_flat_map_comm (p : B -> bool) (f : A -> list B) (l : list A) :
  List.filter p (flat_map f l)
  = flat_map (fun a => List.filter p (f a)) l.
Proof.
  induction l as [|a l IH]; simpl.
  - reflexivity.
  - rewrite filter_app, IH. reflexivity.
Qed.

Lemma filter_map_comm (p : B -> bool) (g : A -> B) (l : list A) :
  List.filter p (map g l) = map g (List.filter (fun a => p (g a)) l).
Proof.
  induction l as [|a l IH]; simpl.
  - reflexivity.
  - destruct (p (g a)); simpl; rewrite IH; reflexivity.
Qed.

Lemma map_flat_map_comm {C : Type} (h : B -> C) (f : A -> list B)
    (l : list A) :
  map h (flat_map f l) = flat_map (fun a => map h (f a)) l.
Proof.
  induction l as [|a l IH]; simpl.
  - reflexivity.
  - rewrite map_app, IH. reflexivity.
Qed.

Lemma flat_map_ext_in (f g : A -> list B) (l : list A) :
  (forall a, In a l -> f a = g a) -> flat_map f l = flat_map g l.
Proof.
  induction l as [|a l IH]; simpl; intros H.
  - reflexivity.
  - rewrite (H a) by (left; reflexivity).
    rewrite IH by (intros b Hb; apply H; right; exact Hb). reflexivity.
Qed.

Lemma filter_none (p : A -> bool) (l : list A) :
  (forall a, In a l -> p a = false) -> List.filter p l = [].
Proof.
  induction l as [|a l IH]; simpl; intros H.
  - reflexivity.
  - rewrite (H a) by (left; reflexivity).
    apply IH. intros b Hb. apply H. right. exact Hb.
Qed.

Lemma Forall2_In_l (P : A -> B -> Prop) (l1 : list A) (l2 : list B) (a : A) :
  Forall2 P l1 l2 -> In a l1 -> exists b, In b l2 /\ P a b.
Proof.
  induction 1 as [|x y l1 l2 Hxy _ IH]; simpl.
  - intros [].
  - intros [<- | Hin].
    + exists y. auto.
    + destruct (IH Hin) as [b [Hb Hab]]. exists b. auto.
Qed.

(** Mapping over rows and numbering them relates each result to the row
    it came from, in order. *)
Lemma Forall2_numbered_map (g : A -> B) {C : Type} (F : nat -> B -> C)
    (P : C -> A -> Prop) (l : list A) :
  (forall k a, In a l -> P (F k (g a)) a) ->
  forall start,
    Forall2 P
      (map (fun kb => F (fst kb) (snd kb))
         (combine (seq start (List.length (map g l))) (map g l)))
      l.
Proof.
  induction l as [|a l IH]; intros HP start; simpl.
  - constructor.
  - constructor.
    + apply HP. left. reflexivity.
    + apply IH. intros k b Hb. apply HP. right. exact Hb.
Qed.

End ListFacts.

Section EventsView.

Variable spark : SparkSession.
Variable date_convert : value -> value.
Variable log : DataFrame.

Lemma with_start_time_Ok (df : DataFrame) :
  has_column (columns df) "ts" = true ->
  with_start_time spark date_convert df
  = Ok (mkDataFrame (columns_with (columns df) "start_time")
          (map (fun r => set_nth (column_slot (columns df) "start_time")
                           (date_convert (cell (columns df) r "ts")) r)
             (rows df))).
Proof.
  intros H. unfold with_start_time, attr. rewrite H. simpl.
  unfold withColumn. simpl. rewrite H. reflexivity.
Qed.

Lemma with_start_time_Raise (df : DataFrame) :
  has_column (columns df) "ts" = false ->
  with_start_time spark date_convert df = Raise (AttributeError "ts").
Proof. intros H. unfold with_start_time, attr. rewrite H. reflexivity. Qed.

(** The events view holds the NextSong rows of the log frame, in their
    order, each with its start time and its id. *)
Lemma events_view_spec :
  has_column (columns log) "page" = true ->
  has_column (columns log) "ts" = true ->
  exists df df' ev,
    nextsong spark log = Ok df
    /\ rows df = List.filter (page_is_nextsong (columns log)) (rows log)
    /\ columns df = columns log
    /\ with_start_time spark date_convert df = Ok df'
    /\ ev = songplay_events df'
    /\ events_view spark date_convert log = Ok ev
    /\ columns ev
       = columns_with (columns_with (columns log) "start_time") "songplay_id"
    /\ Forall2 (event_of date_convert ev df) (rows ev) (rows df).
Proof.
  intros Hpage Hts.
  set (df := mkDataFrame (columns log)
               (List.filter (page_is_nextsong (columns log)) (rows log))).
  set (df' := mkDataFrame (columns_with (columns df) "start_time")
                (map (fun r => set_nth (column_slot (columns df) "start_time")
                                 (date_convert (cell (columns df) r "ts")) r)
                   (rows df))).
  assert (Hdf : nextsong spark log = Ok df) by (apply nextsong_Ok; exact Hpage).
  assert (Hdf' : with_start_time spark date_convert df = Ok df')
    by (apply with_start_time_Ok; exact Hts).
  exists df, df', (songplay_events df').
  split; [exact Hdf |]. split; [reflexivity |]. split; [reflexivity |].
  split; [exact Hdf' |]. split; [reflexivity |].
  split; [unfold events_view; rewrite Hdf; simpl; rewrite Hdf'; reflexivity |].
  split; [reflexivity |].
  unfold songplay_events, withColumn_monotonically_increasing_id.
  cbn [rows columns df' df].
  apply (Forall2_numbered_map
           (fun r => set_nth (column_slot (columns log) "start_time")
                       (date_convert (cell (columns log) r "ts")) r)
           (fun k r1 =>
              set_nth
                (column_slot (columns_with (columns log) "start_time")
                   "songplay_id") (VInt (Z.of_nat k)) r1)).
  intros k r _. unfold event_of. cbn [columns]. split.
  - intros c Hc1 Hc2.
    rewrite cell_columns_with_other by exact Hc2.
    apply cell_columns_with_other. exact Hc1.
  - rewrite cell_columns_with_other by discriminate.
    apply cell_columns_with_same.
Qed.

End EventsView.

Section Join.

Variable tz : Z -> Z.

Lemma cross_two (a b : string) (t1 t2 : DataFrame) :
  cross [(a, t1); (b, t2)]
  = flat_map
      (fun r1 =>
         map (fun r2 => [(a, (columns t1, r1)); (b, (columns t2, r2))])
           (rows t2))
      (rows t1).
Proof.
  simpl. apply flat_map_ext. intros r1.
  rewrite flat_map_singleton, map_map. reflexivity.
Qed.

(** A query over two views: the check of its names, then one row per pair
    of rows on which the predicates are all true. *)
Lemma run_query_two (views : list (string * DataFrame))
    (sel : list select_item) (v1 a1 v2 a2 : string) (conds : list sql_cond)
    (t1 t2 : DataFrame) :
  lookup v1 views = Some t1 -> lookup v2 views = Some t2 ->
  run_query tz views (mkQuery sel [(v1, a1); (v2, a2)] conds)
  = if forallb
         (fun it =>
            sql_resolves tz [(a1, columns t1); (a2, columns t2)]
              (item_expr it)) sel
       && forallb (cond_resolves tz [(a1, columns t1); (a2, columns t2)])
            conds
    then
      Ok (mkDataFrame (map item_name sel)
            (flat_map
               (fun r1 =>
                  map
                    (fun r2 =>
                       project tz sel
                         [(a1, (columns t1, r1)); (a2, (columns t2, r2))])
                    (List.filter
                       (fun r2 =>
                          where_true tz conds
                            [(a1, (columns t1, r1)); (a2, (columns t2, r2))])
                       (rows t2)))
               (rows t1)))
    else Raise unresolved.
Proof.
  intros H1 H2. unfold run_query. cbn [q_from q_select q_where from_tables].
  rewrite H1, H2. cbn [bind map fst snd].
  destruct (forallb _ sel && forallb _ conds); [| reflexivity].
  rewrite cross_two, filter_flat_map_comm, map_flat_map_comm.
  f_equal. f_equal. apply flat_map_ext. intros r1.
  rewrite filter_map_comm, map_map. reflexivity.
Qed.

Lemma songplays_views_events (old : list (string * DataFrame))
    (df song_df : DataFrame) :
  lookup "events" (songplays_views old df song_df)
  = Some (songplay_events df).
Proof. apply lookup_put_same. Qed.

Lemma songplays_views_songs (old : list (string * DataFrame))
    (df song_df : DataFrame) :
  lookup "songs" (songplays_views old df song_df) = Some song_df.
Proof.
  unfold songplays_views. rewrite lookup_put_other by discriminate.
  apply lookup_put_same.
Qed.

End Join.

(* ================================================================== *)
(** * The predicate on the page *)
(* ================================================================== *)

Section PagePredicate.

Variable spark : SparkSession.

(** On a row of the events view the predicate on the page is true. *)
Lemma events_view_page (date_convert : value -> value)
    (log df ev : DataFrame) :
  rows df = List.filter (page_is_nextsong (columns log)) (rows log) ->
  columns df = columns log ->
  Forall2 (event_of date_convert ev df) (rows ev) (rows df) ->
  forall e, In e (rows ev) -> page_is_nextsong (columns ev) e = true.
Proof.
  intros Hrows Hcols Hall e He.
  destruct (Forall2_In_l _ _ _ _ Hall He) as [r [Hr [Hcells _]]].
  rewrite Hrows in Hr. apply filter_In in Hr. destruct Hr as [_ Hp].
  unfold page_is_nextsong in *.
  rewrite Hcells by discriminate. rewrite Hcols. exact Hp.
Qed.

(** Over the views of lines 112 and 116, the events one made from the frame
    lines 78 and 93 give, a query text with the four predicates and the text
    with the last three have the same outcome, whatever its select list is:
    the same exception or the same table. *)
Lemma page_predicate_in_query (f : value -> value)
    (old : list (string * DataFrame)) (log df df' song_df : DataFrame)
    (entries : list (list select_item)) :
  nextsong spark log = Ok df ->
  with_start_time spark f df = Ok df' ->
  spark_sql spark (songplays_views old df' song_df)
    (mkSqlText entries songplays_from songplays_where)
  = spark_sql spark (songplays_views old df' song_df)
      (mkSqlText entries songplays_from songplays_where_without_page).
Proof.
  intros Hdf0 Hdf0'.
  destruct (has_column (columns log) "page") eqn:Hpage.
  2: { rewrite (nextsong_Raise spark log Hpage) in Hdf0. discriminate. }
  destruct (has_column (columns log) "ts") eqn:Hts.
  2: { rewrite (nextsong_Ok spark log Hpage) in Hdf0.
       injection Hdf0 as Hdf0. subst df.
       rewrite with_start_time_Raise in Hdf0' by exact Hts.
       discriminate. }
  destruct (events_view_spec spark f log Hpage Hts)
    as [d [d' [ev [Hd [Hrows [Hcols [Hd' [Hev [Hview [Hevc Hall]]]]]]]]]].
  assert (Ed : d = df) by congruence. subst d.
  assert (Ed' : d' = df') by congruence. subst d'.
  assert (Hp := events_view_page f log df ev Hrows Hcols Hall).
  unfold spark_sql, parse_sql. cbn [text_select text_from text_where].
  destruct (forallb one_item entries); [| reflexivity].
  cbn [bind].
  unfold songplays_from, songplays_where, songplays_where_without_page.
  rewrite !(run_query_two _ _ _ _ _ _ _ _ (songplay_events df') song_df
              (songplays_views_events old df' song_df)
              (songplays_views_songs old df' song_df)).
  rewrite <- Hev.
  assert (Hpc : has_column (columns ev) "page" = true).
  { rewrite Hevc. do 2 apply has_column_columns_with_old. exact Hpage. }
  set (sel := List.concat entries).
  set (scope := [("event", columns ev); ("song", columns song_df)]).
  match goal with
  | |- (if ?c1 && forallb ?g (?p :: ?cs) then _ else _) = _ =>
      assert (Hcond : forallb g (p :: cs) = forallb g cs)
  end.
  { cbn [forallb]. unfold scope at 1.
    cbn [cond_resolves sql_resolves lookup].
    change (String.eqb "event" "event") with true. cbn iota.
    rewrite Hpc. reflexivity. }
  rewrite Hcond.
  match goal with
  | |- (if ?c then _ else _) = _ => destruct c; [| reflexivity]
  end.
  f_equal. f_equal. apply flat_map_ext_in. intros e He.
  f_equal. apply filter_ext. intros s.
  unfold where_true. cbn [forallb].
  specialize (Hp e He). unfold page_is_nextsong in Hp.
  change (is_true (cond_eval (time_zone spark)
             [("event", (columns ev, e)); ("song", (columns song_df, s))]
             (SqlEq (SqlCol "event" "page") (SqlLit (VStr "NextSong")))))
    with (is_true (sql_eq (cell (columns ev) e "page") (VStr "NextSong"))).
  rewrite Hp. reflexivity.
Qed.

(** The stage of lines 63 to 139, its query text with any select list:
    with the four predicates and with the last three it ends in the same
    state with the same result. *)
Lemma process_log_data_with_query_page (globals : list (string * pyobj))
    (input output : string) (w : world) (entries : list (list select_item)) :
  process_log_data_with_query
    (mkSqlText entries songplays_from songplays_where)
    globals spark input output w
  = process_log_data_with_query
      (mkSqlText entries songplays_from songplays_where_without_page)
      globals spark input output w.
Proof.
  unfold process_log_data_with_query.
  apply bind_run_ext. intros _ w1 _.
  apply bind_run_ext. intros log w2 _.
  apply bind_run_ext. intros df w3 Hdf.
  apply bind_run_ext. intros users w4 _.
  apply bind_run_ext. intros _ w5 _.
  apply bind_run_ext. intros f w6 _.
  apply bind_run_ext. intros df' w7 Hdf'.
  apply bind_run_ext. intros times w8 _.
  apply bind_run_ext. intros _ w9 _.
  apply bind_run_ext. intros song_df w10 _.
  apply bind_run_ext. intros u1 w11 Hsongs.
  apply bind_run_ext. intros o w12 Hid.
  apply bind_run_ext. intros u2 w13 Hevents.
  apply bind_run_ext. intros views w14 Hviews.
  apply (f_equal snd) in Hdf, Hdf'. cbn [snd lift] in Hdf, Hdf'.
  apply (f_equal fst) in Hsongs, Hid, Hevents. cbn [fst lift] in Hid.
  unfold createOrReplaceTempView in Hsongs, Hevents.
  cbn [fst] in Hsongs, Hevents.
  apply (f_equal snd) in Hviews. unfold get_views in Hviews.
  cbn [snd] in Hviews. injection Hviews as Hviews.
  assert (Hq : spark_sql spark views
                 (mkSqlText entries songplays_from songplays_where)
               = spark_sql spark views
                   (mkSqlText entries songplays_from
                      songplays_where_without_page)).
  { subst views w13 w12 w11. cbn [temp_views].
    change (put "events" (songplay_events df')
              (put "songs" song_df (temp_views w10)))
      with (songplays_views (temp_views w10) df' song_df).
    exact (page_predicate_in_query f (temp_views w10) log df df' song_df
             entries Hdf Hdf'). }
  unfold bind_run, lift. rewrite Hq. reflexivity.
Qed.

(** The stage is its parametrised form at the query text of the source. *)
Lemma process_log_data_is_with_query (globals : list (string * pyobj))
    (input output : string) :
  process_log_data globals spark input output
  = process_log_data_with_query songplays_sql globals spark input output.
Proof. reflexivity. Qed.

(** C10.  The predicate on [event.page] (line 131) changes nothing, on any
    input.  The stage as it is written and the stage with line 131 left
    out end in the same state with the same result, under any binding of
    the module's names; and that is so for the predicate itself, not for
    the missing comma: under any select list, parsed or not, the stage
    ends the same with and without the predicate, and a query over the
    views of lines 112 and 116 gives the same table or the same exception,
    because line 78 has already kept the NextSong rows only. *)
Theorem page_predicate_is_redundant (globals : list (string * pyobj))
    (input output : string) (w : world) :
  process_log_data globals spark input output
  = process_log_data_with_query songplays_sql globals spark input output
  /\ process_log_data globals spark input output w
     = process_log_data_with_query songplays_sql_without_page globals spark
         input output w
  /\ (forall entries,
        process_log_data_with_query
          (mkSqlText entries songplays_from songplays_where)
          globals spark input output w
        = process_log_data_with_query
            (mkSqlText entries songplays_from songplays_where_without_page)
            globals spark input output w)
  /\ (forall f old log df df' song_df entries,
        nextsong spark log = Ok df ->
        with_start_time spark f df = Ok df' ->
        spark_sql spark (songplays_views old df' song_df)
          (mkSqlText entries songplays_from songplays_where)
        = spark_sql spark (songplays_views old df' song_df)
            (mkSqlText entries songplays_from
               songplays_where_without_page)).
Proof.
  split; [apply process_log_data_is_with_query |]. split; [| split].
  - rewrite process_log_data_is_with_query.
    exact (process_log_data_with_query_page globals input output w
             (text_select songplays_sql)).
  - intros entries. apply process_log_data_with_query_page.
  - intros f old log df df' song_df entries.
    apply page_predicate_in_query.
Qed.

End PagePredicate.

(** With a select list that parses, the query of the stage gives a row on
    the sample inputs, the same one with and without the predicate on the
    page. *)
Example page_predicate_on_a_select_list_that_parses :
  let entries :=
    [ [mkItem (SqlCol "event" "songplay_id") "songplay_id"];
      [mkItem (SqlCol "song" "song_id") "song_id"] ] in
  let query_with (conds : list sql_cond) :=
    df <- nextsong sample_spark log1;;
    df' <- with_start_time sample_spark date_convert_spec df;;
    spark_sql sample_spark (songplays_views [] df' catalog1)
      (mkSqlText entries songplays_from conds) in
  query_with songplays_where
  = Ok (mkDataFrame ["songplay_id"; "song_id"] [[VInt 0; VStr "S1"]])
  /\ query_with songplays_where_without_page
     = Ok (mkDataFrame ["songplay_id"; "song_id"] [[VInt 0; VStr "S1"]]).
Proof. split; vm_compute; reflexivity. Qed.

(* ================================================================== *)
(** * The paths of the reads *)
(* ================================================================== *)

Section Globs.

Lemma append_assoc (a b c : string) :
  String.append (String.append a b) c = String.append a (String.append b c).
Proof. induction a as [|x a IH]; simpl; congruence. Qed.

Lemma length_append (a b : string) :
  String.length (String.append a b) = (String.length a + String.length b)%nat.
Proof. induction a as [|x a IH]; simpl; congruence. Qed.

Lemma is_empty_append (a b : string) :
  is_empty b = false -> is_empty (String.append a b) = false.
Proof. destruct a; simpl; auto. Qed.

Lemma endswith_sep_append (a b : string) :
  is_empty b = false ->
  endswith_sep (String.append a b) = endswith_sep b.
Proof.
  intros Hb. induction a as [|x a IH]; simpl.
  - reflexivity.
  - destruct (String.append a b) eqn:E.
    + destruct a; simpl in E; [subst b; discriminate | discriminate].
    + exact IH.
Qed.

(** After a component that does not end with the separator, the next
    component comes after a separator. *)
Lemma join_step_after (q s b : string) :
  is_empty s = false -> endswith_sep s = false -> startswith_sep b = false ->
  join_step (String.append q s) b
  = String.append (String.append q s) (String.append "/" b).
Proof.
  intros Hs He Hb. unfold join_step.
  rewrite Hb, is_empty_append, endswith_sep_append, He by exact Hs.
  reflexivity.
Qed.

Lemma join_step_song_data (i : string) :
  exists q, join_step i "song_data" = String.append q "song_data".
Proof.
  unfold join_step. cbn [startswith_sep]. 
  change (Ascii.eqb "s" "/") with false. cbn iota.
  destruct (is_empty i || endswith_sep i).
  - exists i. reflexivity.
  - exists (String.append i "/"). rewrite append_assoc. reflexivity.
Qed.

(** The catalog stage's glob is the events stage's catalog path followed by
    a file pattern. *)
Lemma song_data_extends_song_df_path (i : string) :
  song_data i = String.append (song_df_path i) "/*.json".
Proof.
  unfold song_data, song_df_path, os_path_join. cbn [fold_left].
  destruct (join_step_song_data i) as [q ->].
  rewrite (join_step_after q "song_data" "*") by reflexivity.
  change (String.append "/" "*") with "/*".
  rewrite (join_step_after _ "/*" "*") by reflexivity.
  change (String.append "/" "*") with "/*".
  rewrite (join_step_after _ "/*" "*") by reflexivity.
  change (String.append "/" "*") with "/*".
  rewrite (join_step_after _ "/*" "*.json") by reflexivity.
  reflexivity.
Qed.

End Globs.

(** C5, as the claim has it, fails: on the input root of the script the
    second read of the catalog does not use the catalog stage's glob. *)
Lemma song_df_path_is_not_song_data :
  song_data input_data = "s3a://udacity-dend/song_data/*/*/*/*.json"
  /\ song_df_path input_data = "s3a://udacity-dend/song_data/*/*/*"
  /\ song_df_path input_data <> song_data input_data.
Proof.
  split; [reflexivity |]. split; [reflexivity |].
  vm_compute. discriminate.
Qed.

(** C5, as the stage is written.  For every input root the second read of
    the catalog is a read of its own, by the JSON reader, of the path
    [input/song_data/*/*/*]: three wildcard levels and no file pattern.
    The catalog stage's glob is that path followed by [/*.json], so the two
    patterns differ. *)
Theorem song_df_read_uses_directory_glob (spark : SparkSession)
    (input : string) :
  read_json spark (song_df_path input)
  = read_source spark (mkRead "json" (song_df_path input))
  /\ song_df_path input
     = String.append (os_path_join input ["song_data"]) "/*/*/*"
  /\ song_data input = String.append (song_df_path input) "/*.json"
  /\ song_df_path input <> song_data input.
Proof.
  split; [reflexivity |]. split; [| split].
  - unfold song_df_path, os_path_join. cbn [fold_left].
    destruct (join_step_song_data input) as [q ->].
    rewrite (join_step_after q "song_data" "*") by reflexivity.
    change (String.append "/" "*") with "/*".
    rewrite (join_step_after _ "/*" "*") by reflexivity.
    change (String.append "/" "*") with "/*".
    rewrite (join_step_after _ "/*" "*") by reflexivity.
    rewrite !append_assoc. reflexivity.
  - apply song_data_extends_song_df_path.
  - rewrite song_data_extends_song_df_path. intros H.
    apply (f_equal String.length) in H. rewrite length_append in H.
    simpl in H. lia.
Qed.

(* ================================================================== *)
(** * Where a run of the script stops *)
(* ================================================================== *)

Section Stops.

(** C4.  The catalog stage asks its reader for no format, and the session
    of the script sets none: the read of the glob
    [input/song_data/*/*/*/*.json] is a Parquet read, not a JSON one.  On a
    storage that holds JSON text the run stops there and writes nothing. *)
Theorem catalog_stage_reads_parquet :
  (forall c, default_source (create_spark_session c) = "parquet")
  /\ (forall c input,
        read_load (create_spark_session c) (song_data input)
        = cluster_storage c (mkRead "parquet" (song_data input)))
  /\ song_data input_data = "s3a://udacity-dend/song_data/*/*/*/*.json"
  /\ (forall catalog log w,
        main etl_globals (mkCluster utc (json_storage catalog log)) w
        = (w, Raise (AnalysisException "not a Parquet file"))).
Proof.
  split; [reflexivity |]. split; [reflexivity |]. split; [reflexivity |].
  intros catalog log w. reflexivity.
Qed.

Lemma users_path_neq_times_path (output : string) :
  os_path_join output ["times"] <> os_path_join output ["users"].
Proof.
  apply os_path_join_one_neq; [reflexivity | reflexivity | discriminate].
Qed.

Lemma users_path_neq_songplays_path (output : string) :
  os_path_join output ["songplays"] <> os_path_join output ["users"].
Proof.
  apply os_path_join_one_neq; [reflexivity | reflexivity | discriminate].
Qed.

(** C2.  Line 92 reads the name [date_convert], which the module does not
    bind: it raises [NameError].  So no run of the event stage derives a
    start time: every run ends in an exception, and leaves what the times
    and songplays paths held. *)
Theorem start_time_is_never_derived :
  get_timestamp etl_globals = Raise (NameError "date_convert")
  /\ forall spark input output w,
       exists w' e,
         process_log_data etl_globals spark input output w = (w', Raise e)
         /\ lookup (os_path_join output ["times"]) (outputs w')
            = lookup (os_path_join output ["times"]) (outputs w)
         /\ lookup (os_path_join output ["songplays"]) (outputs w')
            = lookup (os_path_join output ["songplays"]) (outputs w).
Proof.
  split; [reflexivity |].
  intros spark input output w. unfold process_log_data.
  change (global_ etl_globals "os") with (Ok PyModule).
  rewrite (bind_lift_Ok _ PyModule) by reflexivity.
  destruct (read_json spark (log_data input)) as [log | e] eqn:Hread.
  2: { rewrite (bind_lift_Raise _ e) by reflexivity.
       exists w, e. repeat split. }
  rewrite (bind_lift_Ok _ log) by reflexivity.
  destruct (nextsong spark log) as [df | e] eqn:Hdf.
  2: { rewrite (bind_lift_Raise _ e) by reflexivity.
       exists w, e. repeat split. }
  rewrite (bind_lift_Ok _ df) by reflexivity.
  destruct (users_table df) as [users | e] eqn:Husers.
  2: { rewrite (bind_lift_Raise _ e) by reflexivity.
       exists w, e. repeat split. }
  rewrite (bind_lift_Ok _ users) by reflexivity.
  unfold bind_run at 1. rewrite write_parquet_overwrite by reflexivity.
  change (get_timestamp etl_globals)
    with (@Raise (value -> value) (NameError "date_convert")).
  rewrite (bind_lift_Raise _ (NameError "date_convert")) by reflexivity.
  eexists. eexists. split; [reflexivity |]. cbn [outputs]. split.
  - apply lookup_put_other. apply users_path_neq_times_path.
  - apply lookup_put_other. apply users_path_neq_songplays_path.
Qed.

Variable f : value -> value.

Lemma time_table_never_returns (spark : SparkSession) (df : DataFrame) :
  exists e,
    time_table spark (column_function (globals_with_date_convert f) "hour")
      (column_function (globals_with_date_convert f) "dayofmonth") (column_function (globals_with_date_convert f) "weekofyear")
      (column_function (globals_with_date_convert f) "month") (column_function (globals_with_date_convert f) "year")
      (column_function (globals_with_date_convert f) "dayofweek") df
    = Raise e.
Proof.
  unfold time_table.
  change (column_function (globals_with_date_convert f) "hour") with (pyspark_fn "hour").
  change (column_function (globals_with_date_convert f) "dayofmonth") with (pyspark_fn "dayofmonth").
  change (column_function (globals_with_date_convert f) "weekofyear") with (pyspark_fn "weekofyear").
  change (column_function (globals_with_date_convert f) "month") with (pyspark_fn "month").
  change (column_function (globals_with_date_convert f) "year") with (pyspark_fn "year").
  change (column_function (globals_with_date_convert f) "dayofweek")
    with (@Raise (string -> Column) (NameError "dayofweek")).
  unfold pyspark_fn. cbv zeta.
  destruct (select ["start_time"] df) as [t0 | e]; cbn [bind]; [| eauto].
  destruct (dropDuplicates ["start_time"] t0) as [t1 | e]; cbn [bind];
    [| eauto].
  destruct (withColumn _ "hour" _ t1) as [t2 | e]; cbn [bind]; [| eauto].
  destruct (withColumn _ "day" _ t2) as [t3 | e]; cbn [bind]; [| eauto].
  destruct (withColumn _ "week" _ t3) as [t4 | e]; cbn [bind]; [| eauto].
  destruct (withColumn _ "month" _ t4) as [t5 | e]; cbn [bind]; [| eauto].
  destruct (withColumn _ "year" _ t5) as [t6 | e]; cbn [bind]; eauto.
Qed.

(** C3.  Line 103 reads the name [dayofweek], which line 6 does not import:
    it raises [NameError].  So, even with [date_convert] bound to a
    function, the expression of the time table never returns a table, every
    run of the event stage ends in an exception, and what the times path
    held stays. *)
Theorem time_table_is_never_built :
  column_function (globals_with_date_convert f) "dayofweek" = Raise (NameError "dayofweek")
  /\ (forall spark df,
        exists e,
          time_table spark (column_function (globals_with_date_convert f) "hour")
            (column_function (globals_with_date_convert f) "dayofmonth") (column_function (globals_with_date_convert f) "weekofyear")
            (column_function (globals_with_date_convert f) "month") (column_function (globals_with_date_convert f) "year")
            (column_function (globals_with_date_convert f) "dayofweek") df
          = Raise e)
  /\ forall spark input output w,
       exists w' e,
         process_log_data (globals_with_date_convert f) spark input output w = (w', Raise e)
         /\ lookup (os_path_join output ["times"]) (outputs w')
            = lookup (os_path_join output ["times"]) (outputs w).
Proof.
  split; [reflexivity |]. split; [exact time_table_never_returns |].
  intros spark input output w. unfold process_log_data.
  change (global_ (globals_with_date_convert f) "os") with (Ok PyModule).
  rewrite (bind_lift_Ok _ PyModule) by reflexivity.
  destruct (read_json spark (log_data input)) as [log | e] eqn:Hread.
  2: { rewrite (bind_lift_Raise _ e) by reflexivity.
       exists w, e. repeat split. }
  rewrite (bind_lift_Ok _ log) by reflexivity.
  destruct (nextsong spark log) as [df | e] eqn:Hdf.
  2: { rewrite (bind_lift_Raise _ e) by reflexivity.
       exists w, e. repeat split. }
  rewrite (bind_lift_Ok _ df) by reflexivity.
  destruct (users_table df) as [users | e] eqn:Husers.
  2: { rewrite (bind_lift_Raise _ e) by reflexivity.
       exists w, e. repeat split. }
  rewrite (bind_lift_Ok _ users) by reflexivity.
  unfold bind_run at 1. rewrite write_parquet_overwrite by reflexivity.
  change (get_timestamp (globals_with_date_convert f)) with (Ok f).
  rewrite (bind_lift_Ok _ f) by reflexivity.
  destruct (with_start_time spark f df) as [df' | e] eqn:Hdf'.
  2: { rewrite (bind_lift_Raise _ e) by reflexivity.
       eexists. eexists. split; [reflexivity |]. cbn [outputs].
       apply lookup_put_other. apply users_path_neq_times_path. }
  rewrite (bind_lift_Ok _ df') by reflexivity.
  destruct (time_table_never_returns spark df') as [e He].
  rewrite (bind_lift_Raise _ e) by exact He.
  eexists. eexists. split; [reflexivity |]. cbn [outputs].
  apply lookup_put_other. apply users_path_neq_times_path.
Qed.

End Stops.

(** On the sample storage the event stage writes the users table and then
    stops at line 92. *)
Example process_log_data_stops_at_date_convert :
  process_log_data etl_globals sample_spark input_data output_data empty_world
  = (mkWorld
       [("s3a://datalake-udacity-haipd4/users",
         mkStored []
           (mkDataFrame
              ["user_id"; "first_name"; "last_name"; "gender"; "level"]
              [[VStr "1"; VStr "Ann"; VStr "Lee"; VStr "F"; VStr "free"]]))]
       [],
     Raise (NameError "date_convert")).
Proof. vm_compute. reflexivity. Qed.

(** With [date_convert] bound as the spec has it, the stage stops at line
    103, before it writes the time table. *)
Example process_log_data_stops_at_dayofweek :
  snd (process_log_data (globals_with_date_convert date_convert_spec)
         sample_spark input_data output_data empty_world)
  = Raise (NameError "dayofweek").
Proof. vm_compute. reflexivity. Qed.

(** The select list of the query has an entry of two items: the text does
    not parse. *)
Example songplays_sql_does_not_parse :
  parse_sql songplays_sql
  = Raise (ParseException "mismatched input in select list").
Proof. reflexivity. Qed.

(* ================================================================== *)
(** * The time table, its six names bound *)
(* ================================================================== *)

Section TimeTable.

Variable spark : SparkSession.
Variable df : DataFrame.

Lemma withColumn_fn_Ok (tz : Z -> Z) (name fn : string)
    (f : value -> value) (cols : list string) (rs : list Row) :
  has_column cols "start_time" = true ->
  builtin tz fn = Some f ->
  withColumn tz name (Fn fn (Col "start_time")) (mkDataFrame cols rs)
  = Ok (mkDataFrame (columns_with cols name)
          (map (fun r => set_nth (column_slot cols name)
                           (f (cell cols r "start_time")) r) rs)).
Proof.
  intros Hc Hf. unfold withColumn. cbn [columns rows resolves eval].
  rewrite Hf, Hc. reflexivity.
Qed.

(** With [dayofweek] bound to the function of that name, lines 96 to 103
    give one row per distinct start time of the frame, each row the start
    time with its six calendar components. *)
Lemma time_table_bound_spec :
  has_column (columns df) "start_time" = true ->
  exists t,
    time_table_bound spark df = Ok t
    /\ columns t
       = ["start_time"; "hour"; "day"; "week"; "month"; "year"; "weekday"]
    /\ NoDup (map (key_of t "start_time") (rows t))
    /\ (forall k, In k (map (key_of t "start_time") (rows t))
                  <-> In k (map (key_of df "start_time") (rows df)))
    /\ (forall r, In r (rows t) ->
          exists r0, In r0 (rows df)
            /\ r = time_row (time_zone spark)
                     (cell (columns df) r0 "start_time")).
Proof.
  intros Hst.
  destruct (select_dropDuplicates ["start_time"] "start_time" df)
    as [t1 [Ht1 [Hc [Hnd [Hkeys Hrows]]]]].
  { unfold has_columns. simpl. rewrite Hst. reflexivity. }
  { simpl. auto. }
  destruct t1 as [c1 r1]. cbn [columns rows] in Hc, Hrows, Hnd, Hkeys.
  subst c1.
  unfold time_table_bound, time_table, pyspark_fn.
  destruct (select ["start_time"] df) as [t0 | e]; [| discriminate].
  cbn [bind] in Ht1 |- *. rewrite Ht1. cbv zeta. cbn [bind].
  rewrite (withColumn_fn_Ok _ "hour" "hour"
             (on_timestamp (ts_hour (time_zone spark))))
    by reflexivity.
  cbn [bind].
  rewrite (withColumn_fn_Ok _ "day" "dayofmonth"
             (on_timestamp (ts_dayofmonth (time_zone spark))))
    by reflexivity.
  cbn [bind].
  rewrite (withColumn_fn_Ok _ "week" "weekofyear"
             (on_timestamp (ts_weekofyear (time_zone spark))))
    by reflexivity.
  cbn [bind].
  rewrite (withColumn_fn_Ok _ "month" "month"
             (on_timestamp (ts_month (time_zone spark))))
    by reflexivity.
  cbn [bind].
  rewrite (withColumn_fn_Ok _ "year" "year"
             (on_timestamp (ts_year (time_zone spark))))
    by reflexivity.
  cbn [bind].
  rewrite (withColumn_fn_Ok _ "weekday" "dayofweek"
             (on_timestamp (ts_dayofweek (time_zone spark))))
    by reflexivity.
  rewrite !map_map.
  eexists. split; [reflexivity |]. cbn [columns rows].
  split; [reflexivity |].
  assert (Hrow : forall r, In r r1 ->
            exists r0, In r0 (rows df)
              /\ r = [cell (columns df) r0 "start_time"]).
  { intros r Hr. destruct (Hrows r Hr) as [r0 [Hr0 ->]]. exists r0. auto. }
  split; [| split].
  - rewrite map_map.
    rewrite (map_ext_in _ (key_of (mkDataFrame ["start_time"] r1) "start_time")).
    + exact Hnd.
    + intros r Hr. destruct (Hrow r Hr) as [r0 [_ ->]]. reflexivity.
  - intros k. rewrite <- Hkeys. rewrite map_map.
    rewrite (map_ext_in _ (key_of (mkDataFrame ["start_time"] r1) "start_time")).
    + reflexivity.
    + intros r Hr. destruct (Hrow r Hr) as [r0 [_ ->]]. reflexivity.
  - intros r Hr. apply in_map_iff in Hr. destruct Hr as [r' [<- Hr']].
    destruct (Hrow r' Hr') as [r0 [Hr0 ->]].
    exists r0. split; [exact Hr0 | reflexivity].
Qed.

End TimeTable.

(* ================================================================== *)
(** * The theorems on the sample inputs *)
(* ================================================================== *)

(** 2018-11-15 00:30:26 UTC was a Thursday of ISO week 46. *)
Example time_row_sample :
  time_row utc (date_convert_spec (VInt 1542241826796))
  = [VTimestamp 1542241826796000; VInt 0; VInt 15; VInt 46; VInt 11;
     VInt 2018; VInt 5].
Proof. vm_compute. reflexivity. Qed.

Lemma songs_table_one_row_per_song_id_witness :
  read_load (spark_of catalog_dup log1) (song_data input_data)
  = Ok catalog_dup
  /\ has_columns songs_columns catalog_dup = true
  /\ exists t,
       songs_table catalog_dup = Ok t
       /\ columns t = songs_columns
       /\ NoDup (map (key_of t "song_id") (rows t))
       /\ (forall k, In k (map (key_of t "song_id") (rows t))
                     <-> In k (map (key_of catalog_dup "song_id")
                                 (rows catalog_dup)))
       /\ (forall r, In r (rows t) ->
             exists r0, In r0 (rows catalog_dup)
               /\ forall c, In c songs_columns ->
                    cell (columns t) r c = cell (columns catalog_dup) r0 c)
       /\ lookup (os_path_join output_data ["songs"])
            (outputs (fst (process_song_data etl_globals
                             (spark_of catalog_dup log1) input_data
                             output_data empty_world)))
          = Some (mkStored ["year"; "artist_id"] t).
Proof.
  split; [reflexivity |]. split; [reflexivity |].
  apply (songs_table_one_row_per_song_id (spark_of catalog_dup log1)
           input_data output_data empty_world catalog_dup); reflexivity.
Defined.

Lemma artists_table_one_row_per_artist_id_witness :
  read_load sample_spark (song_data input_data) = Ok catalog2
  /\ has_columns songs_columns catalog2 = true
  /\ has_columns artists_source_columns catalog2 = true
  /\ exists t,
       artists_table catalog2 = Ok t
       /\ columns t
          = ["artist_id"; "name"; "location"; "latitude"; "longitude"]
       /\ NoDup (map (key_of t "artist_id") (rows t))
       /\ (forall k, In k (map (key_of t "artist_id") (rows t))
                     <-> In k (map (key_of catalog2 "artist_id")
                                 (rows catalog2)))
       /\ (forall r, In r (rows t) ->
             exists r0, In r0 (rows catalog2)
               /\ cell (columns t) r "artist_id"
                  = cell (columns catalog2) r0 "artist_id"
               /\ cell (columns t) r "name"
                  = cell (columns catalog2) r0 "artist_name"
               /\ cell (columns t) r "location"
                  = cell (columns catalog2) r0 "artist_location"
               /\ cell (columns t) r "latitude"
                  = cell (columns catalog2) r0 "artist_latitude"
               /\ cell (columns t) r "longitude"
                  = cell (columns catalog2) r0 "artist_longitude")
       /\ lookup (os_path_join output_data ["artists"])
            (outputs (fst (process_song_data etl_globals sample_spark
                             input_data output_data empty_world)))
          = Some (mkStored [] t).
Proof.
  split; [reflexivity |]. split; [reflexivity |]. split; [reflexivity |].
  apply (artists_table_one_row_per_artist_id sample_spark input_data
           output_data empty_world catalog2); reflexivity.
Defined.

Lemma users_table_one_row_per_nextsong_user_witness :
  has_columns ("page" :: users_source_columns) log_mixed = true
  /\ exists df t,
       nextsong sample_spark log_mixed = Ok df
       /\ users_table df = Ok t
       /\ columns t
          = ["user_id"; "first_name"; "last_name"; "gender"; "level"]
       /\ NoDup (map (key_of t "user_id") (rows t))
       /\ (forall k, In k (map (key_of t "user_id") (rows t))
             <-> exists e, In e (rows log_mixed)
                   /\ page_is_nextsong (columns log_mixed) e = true
                   /\ key_of log_mixed "userId" e = k)
       /\ (forall r, In r (rows t) ->
             exists e, In e (rows log_mixed)
               /\ page_is_nextsong (columns log_mixed) e = true
               /\ cell (columns t) r "user_id"
                  = cell (columns log_mixed) e "userId"
               /\ cell (columns t) r "first_name"
                  = cell (columns log_mixed) e "firstName"
               /\ cell (columns t) r "last_name"
                  = cell (columns log_mixed) e "lastName"
               /\ cell (columns t) r "gender"
                  = cell (columns log_mixed) e "gender"
               /\ cell (columns t) r "level"
                  = cell (columns log_mixed) e "level")
       /\ (forall k,
             (forall e, In e (rows log_mixed) ->
                key_of log_mixed "userId" e = k ->
                page_is_nextsong (columns log_mixed) e = false) ->
             ~ In k (map (key_of t "user_id") (rows t))).
Proof.
  split; [reflexivity |].
  apply (users_table_one_row_per_nextsong_user sample_spark log_mixed).
  reflexivity.
Defined.

(* ================================================================== *)
(** * Sequences of overwriting writes *)
(* ================================================================== *)

Section PutFacts.

Context {A : Type}.

Lemma apply_puts_app (ps qs l : list (string * A)) :
  apply_puts (ps ++ qs) l = apply_puts qs (apply_puts ps l).
Proof.
  revert l. induction ps as [|[k a] ps IH]; simpl; intros l.
  - reflexivity.
  - apply IH.
Qed.

(** A key no write names keeps what it held. *)
Lemma lookup_apply_puts_other (p : string) (ps l : list (string * A)) :
  ~ In p (map fst ps) -> lookup p (apply_puts ps l) = lookup p l.
Proof.
  revert l. induction ps as [|[k a] ps IH]; simpl; intros l H.
  - reflexivity.
  - rewrite IH by tauto. apply lookup_put_other. intros ->. tauto.
Qed.

End PutFacts.

Section SubseqFacts.

Context {A : Type}.

Lemma subseq_In (l1 l2 : list A) (x : A) :
  subseq l1 l2 -> In x l1 -> In x l2.
Proof.
  induction 1 as [l | y l1 l2 _ IH | y l1 l2 _ IH]; simpl.
  - intros [].
  - intros H. right. apply IH. exact H.
  - intros [-> | H]; [left; reflexivity | right; apply IH; exact H].
Qed.

Lemma subseq_app_r (l1 l2 l3 : list A) :
  subseq l1 l2 -> subseq l1 (l2 ++ l3).
Proof.
  induction 1 as [l | y l1 l2 _ IH | y l1 l2 _ IH]; simpl.
  - constructor.
  - apply subseq_skip. exact IH.
  - apply subseq_take. exact IH.
Qed.

Lemma subseq_app (l1 l2 l3 l4 : list A) :
  subseq l1 l2 -> subseq l3 l4 -> subseq (l1 ++ l3) (l2 ++ l4).
Proof.
  induction 1 as [l | y l1 l2 _ IH | y l1 l2 _ IH]; simpl; intros H.
  - induction l as [|z l IHl]; simpl; [exact H | apply subseq_skip; exact IHl].
  - apply subseq_skip. apply IH. exact H.
  - apply subseq_take. apply IH. exact H.
Qed.

End SubseqFacts.

(* ================================================================== *)
(** * What the stages write *)
(* ================================================================== *)

Section StageSteps.

Context {A B : Type}.

Variable Q : py B -> Prop.
Hypothesis Q_raise : forall e, Q (Raise e).

(** A step that only computes: if it raises the run ends there, and
    otherwise the run goes on. *)
Lemma stage_bind_lift (paths views : list string) (m : py A)
    (k : A -> run B) :
  (forall a, m = Ok a -> stage_effect Q paths views (k a)) ->
  stage_effect Q paths views (bind_run (lift m) k).
Proof.
  intros Hk. destruct m as [a | e].
  - destruct (Hk a eq_refl) as [ps [vs [r [He [Hq [Hp Hv]]]]]].
    exists ps, vs, r. split; [| split; [| split]]; assumption.
  - exists [], [], (Raise e). split; [| split; [| split]].
    + intros [outs vws]. reflexivity.
    + apply Q_raise.
    + constructor.
    + constructor.
Qed.

Lemma write_parquet_unresolved (parts : list string) (path : string)
    (df : DataFrame) (w : world) :
  forallb (has_column (columns df)) parts = false ->
  write_parquet parts path "overwrite" df w = (w, Raise unresolved).
Proof.
  intros H. unfold write_parquet.
  change (save_mode_of "overwrite") with (Ok Overwrite).
  rewrite H. reflexivity.
Qed.

(** A write in overwrite mode: the table goes under its path, or the write
    raises and the run ends there. *)
Lemma stage_bind_write (paths views parts : list string) (path : string)
    (df : DataFrame) (k : unit -> run B) :
  stage_effect Q paths views (k tt) ->
  stage_effect Q (path :: paths) views
    (bind_run (write_parquet parts path "overwrite" df) k).
Proof.
  intros [ps [vs [r [He [Hq [Hp Hv]]]]]].
  destruct (forallb (has_column (columns df)) parts) eqn:Hparts.
  - exists ((path, mkStored parts df) :: ps), vs, r.
    split; [| split; [| split]]; try assumption.
    + intros w. unfold bind_run.
      rewrite write_parquet_overwrite by exact Hparts.
      rewrite He. reflexivity.
    + simpl. apply subseq_take. exact Hp.
  - exists [], [], (Raise unresolved). split; [| split; [| split]].
    + intros [outs vws]. unfold bind_run.
      rewrite write_parquet_unresolved by exact Hparts. reflexivity.
    + apply Q_raise.
    + constructor.
    + constructor.
Qed.

Lemma stage_bind_view (paths views : list string) (name : string)
    (df : DataFrame) (k : unit -> run B) :
  stage_effect Q paths views (k tt) ->
  stage_effect Q paths (name :: views)
    (bind_run (createOrReplaceTempView name df) k).
Proof.
  intros [ps [vs [r [He [Hq [Hp Hv]]]]]].
  exists ps, ((name, df) :: vs), r. split; [| split; [| split]]; try assumption.
  - intros w. unfold bind_run, createOrReplaceTempView.
    rewrite He. reflexivity.
  - simpl. apply subseq_take. exact Hv.
Qed.

(** One run after another. *)
Lemma stage_bind (Q1 : py A -> Prop) (paths1 views1 paths2 views2 : list string)
    (m : run A) (k : A -> run B) :
  stage_effect Q1 paths1 views1 m ->
  (forall a, stage_effect Q paths2 views2 (k a)) ->
  stage_effect Q (paths1 ++ paths2) (views1 ++ views2) (bind_run m k).
Proof.
  intros [ps [vs [r [He [_ [Hp Hv]]]]]] Hk.
  destruct r as [a | e].
  - destruct (Hk a) as [ps' [vs' [r' [He' [Hq' [Hp' Hv']]]]]].
    exists (ps ++ ps'), (vs ++ vs'), r'. split; [| split; [| split]].
    + intros w. unfold bind_run. rewrite He, He'. cbn [outputs temp_views].
      rewrite !apply_puts_app. reflexivity.
    + exact Hq'.
    + rewrite map_app. apply subseq_app; assumption.
    + rewrite map_app. apply subseq_app; assumption.
  - exists ps, vs, (Raise e). split; [| split; [| split]].
    + intros w. unfold bind_run. rewrite He. reflexivity.
    + apply Q_raise.
    + apply subseq_app_r. exact Hp.
    + apply subseq_app_r. exact Hv.
Qed.

End StageSteps.

Section Stages.

Variable globals : list (string * pyobj).
Variable spark : SparkSession.
Variables input output : string.

Lemma stage_write_last (parts : list string) (path : string)
    (df : DataFrame) :
  stage_effect any_end [path] []
    (write_parquet parts path "overwrite" df).
Proof.
  destruct (forallb (has_column (columns df)) parts) eqn:Hparts.
  - exists [(path, mkStored parts df)], [], (Ok tt).
    split; [| split; [| split]].
    + intros w. rewrite write_parquet_overwrite by exact Hparts.
      reflexivity.
    + exact I.
    + apply subseq_take. constructor.
    + constructor.
  - exists [], [], (Raise unresolved). split; [| split; [| split]].
    + intros [outs vws].
      rewrite write_parquet_unresolved by exact Hparts. reflexivity.
    + exact I.
    + constructor.
    + constructor.
Qed.

(** Lines 116 to 139: the query text does not parse, so the run ends at
    line 118 whatever the views hold. *)
Lemma stage_songplays_query (k : DataFrame -> run unit) :
  stage_effect raises [] []
    (bind_run get_views
       (fun views =>
          bind_run (lift (spark_sql spark views songplays_sql)) k)).
Proof.
  exists [], [], (Raise (ParseException "mismatched input in select list")).
  split; [| split; [| split]].
  - intros [outs vws]. reflexivity.
  - eexists. reflexivity.
  - constructor.
  - constructor.
Qed.

Lemma raises_Raise {A : Type} (e : exn) : raises (@Raise A e).
Proof. exists e. reflexivity. Qed.

Lemma any_end_Raise {A : Type} (e : exn) : any_end (@Raise A e).
Proof. exact I. Qed.

(** The catalog stage writes under [output/songs], then under
    [output/artists], and nowhere else. *)
Lemma process_song_data_effect :
  stage_effect any_end [songs_path output; artists_path output] []
    (process_song_data globals spark input output).
Proof.
  unfold process_song_data.
  apply stage_bind_lift; [apply any_end_Raise |]. intros _ _.
  apply stage_bind_lift; [apply any_end_Raise |]. intros df _.
  apply stage_bind_lift; [apply any_end_Raise |]. intros songs _.
  apply stage_bind_write; [apply any_end_Raise |].
  apply stage_bind_lift; [apply any_end_Raise |]. intros artists _.
  apply stage_write_last.
Qed.

(** The event stage writes under [output/users], then under
    [output/times], registers the views songs and events, touches nothing
    else, and ends in an exception. *)
Lemma process_log_data_effect :
  stage_effect raises [users_path output; times_path output]
    ["songs"; "events"]
    (process_log_data globals spark input output).
Proof.
  unfold process_log_data.
  apply stage_bind_lift; [apply raises_Raise |]. intros _ _.
  apply stage_bind_lift; [apply raises_Raise |]. intros log _.
  apply stage_bind_lift; [apply raises_Raise |]. intros df _.
  apply stage_bind_lift; [apply raises_Raise |]. intros users _.
  apply stage_bind_write; [apply raises_Raise |].
  apply stage_bind_lift; [apply raises_Raise |]. intros f _.
  apply stage_bind_lift; [apply raises_Raise |]. intros df' _.
  apply stage_bind_lift; [apply raises_Raise |]. intros times _.
  apply stage_bind_write; [apply raises_Raise |].
  apply stage_bind_lift; [apply raises_Raise |]. intros song_df _.
  apply stage_bind_view.
  apply stage_bind_lift; [apply raises_Raise |]. intros _ _.
  apply stage_bind_view.
  apply stage_songplays_query.
Qed.

End Stages.

Section OutputPaths.

Variable output : string.

(** The five tables go under five different paths, whatever the output
    root is. *)
Lemma output_paths_NoDup :
  NoDup [songs_path output; artists_path output; users_path output;
         times_path output; songplays_path output].
Proof.
  assert (H : forall a b, startswith_sep a = false ->
                startswith_sep b = false -> a <> b ->
                os_path_join output [a] <> os_path_join output [b])
    by (intros a b; apply os_path_join_one_neq).
  unfold songs_path, artists_path, users_path, times_path, songplays_path.
  repeat (apply NoDup_cons;
          [ cbn [In]; intros Hin;
            repeat match goal with
                   | Hor : _ \/ _ |- _ => destruct Hor as [Hor | Hor]
                   end;
            try contradiction;
            match goal with
            | Heq : os_path_join output [_] = os_path_join output [_] |- _ =>
                revert Heq; apply H;
                [reflexivity | reflexivity | discriminate]
            end
          | ]).
  apply NoDup_nil.
Qed.

End OutputPaths.

Section StageConsequences.

Context {A : Type}.

Variable Q : py A -> Prop.
Variables paths views : list string.
Variable m : run A.

Hypothesis m_effect : stage_effect Q paths views m.

Lemma stage_effect_outputs (w : world) (p : string) :
  ~ In p paths ->
  lookup p (outputs (fst (m w))) = lookup p (outputs w).
Proof.
  destruct m_effect as [ps [vs [r [He [_ [Hp _]]]]]].
  intros Hnot. rewrite He. cbn [fst outputs].
  apply lookup_apply_puts_other. intro Hin. apply Hnot.
  exact (subseq_In _ _ _ Hp Hin).
Qed.

Lemma stage_effect_views (w : world) (v : string) :
  ~ In v views ->
  lookup v (temp_views (fst (m w))) = lookup v (temp_views w).
Proof.
  destruct m_effect as [ps [vs [r [He [_ [_ Hv]]]]]].
  intros Hnot. rewrite He. cbn [fst temp_views].
  apply lookup_apply_puts_other. intro Hin. apply Hnot.
  exact (subseq_In _ _ _ Hv Hin).
Qed.

Lemma stage_effect_end (w : world) : Q (snd (m w)).
Proof.
  destruct m_effect as [ps [vs [r [He [Hq _]]]]].
  rewrite He. exact Hq.
Qed.

End StageConsequences.

Section WholeRun.

Variable globals : list (string * pyobj).

Lemma main_effect (c : cluster) :
  stage_effect raises
    [songs_path output_data; artists_path output_data;
     users_path output_data; times_path output_data]
    ["songs"; "events"]
    (main globals c).
Proof.
  unfold main. cbv zeta.
  apply (stage_bind raises raises_Raise any_end
           [songs_path output_data; artists_path output_data] []
           [users_path output_data; times_path output_data]
           ["songs"; "events"]).
  - apply process_song_data_effect.
  - intros _. apply process_log_data_effect.
Qed.

Lemma songplays_path_not_written (output : string) :
  ~ In (songplays_path output)
      [songs_path output; artists_path output; users_path output;
       times_path output].
Proof.
  pose proof (output_paths_NoDup output) as H.
  apply (NoDup_remove_2 [songs_path output; artists_path output;
                         users_path output; times_path output] [] ) in H.
  rewrite app_nil_r in H. exact H.
Qed.

(** X1.  The catalog stage changes the storage under [output/songs] and
    [output/artists] only, and no view, under any binding of the module's
    names and on any storage. *)
Theorem process_song_data_touches_two_paths (spark : SparkSession)
    (input output : string) (w : world) :
  let w' := fst (process_song_data globals spark input output w) in
  (forall p, p <> songs_path output -> p <> artists_path output ->
     lookup p (outputs w') = lookup p (outputs w))
  /\ (forall v, lookup v (temp_views w') = lookup v (temp_views w)).
Proof.
  pose proof (process_song_data_effect globals spark input output) as H.
  cbv zeta. split.
  - intros p H1 H2. apply (stage_effect_outputs _ _ _ _ H).
    cbn [In]. intros [E | [E | []]]; congruence.
  - intros v. apply (stage_effect_views _ _ _ _ H). intros [].
Qed.

(** X2.  The event stage never returns normally and never writes the songplays
    table: under any binding of the module's names and on any storage it
    ends in an exception, the storage changes under [output/users] and
    [output/times] at most, and only the views songs and events change. *)
Theorem process_log_data_never_writes_songplays (spark : SparkSession)
    (input output : string) (w : world) :
  let w' := fst (process_log_data globals spark input output w) in
  (exists e, snd (process_log_data globals spark input output w) = Raise e)
  /\ lookup (songplays_path output) (outputs w')
     = lookup (songplays_path output) (outputs w)
  /\ (forall p, p <> users_path output -> p <> times_path output ->
        lookup p (outputs w') = lookup p (outputs w))
  /\ (forall v, v <> "songs" -> v <> "events" ->
        lookup v (temp_views w') = lookup v (temp_views w)).
Proof.
  pose proof (process_log_data_effect globals spark input output) as H.
  cbv zeta. split; [| split; [| split]].
  - exact (stage_effect_end _ _ _ _ H w).
  - apply (stage_effect_outputs _ _ _ _ H). intro Hin.
    apply (songplays_path_not_written output). cbn [In] in Hin |- *. tauto.
  - intros p H1 H2. apply (stage_effect_outputs _ _ _ _ H).
    cbn [In]. intros [E | [E | []]]; congruence.
  - intros v H1 H2. apply (stage_effect_views _ _ _ _ H).
    cbn [In]. intros [E | [E | []]]; congruence.
Qed.

(** X3.  No run of the script completes, whatever the module's names are bound
    to and whatever the storage holds: [main] ends in an exception, having
    changed the storage under the songs, artists, users and times paths at
    most; what the songplays path held stays. *)
Theorem main_never_completes (c : cluster) (w : world) :
  let w' := fst (main globals c w) in
  (exists e, snd (main globals c w) = Raise e)
  /\ lookup (songplays_path output_data) (outputs w')
     = lookup (songplays_path output_data) (outputs w)
  /\ (forall p,
        ~ In p [songs_path output_data; artists_path output_data;
                users_path output_data; times_path output_data] ->
        lookup p (outputs w') = lookup p (outputs w)).
Proof.
  pose proof (main_effect c) as H. cbv zeta. split; [| split].
  - exact (stage_effect_end _ _ _ _ H w).
  - apply (stage_effect_outputs _ _ _ _ H).
    apply songplays_path_not_written.
  - intros p Hp. apply (stage_effect_outputs _ _ _ _ H). exact Hp.
Qed.

End WholeRun.

(* ================================================================== *)
(** * What a run leaves when it stops *)
(* ================================================================== *)

Section Outcomes.

Variable spark : SparkSession.
Variables input output : string.
Variable w : world.

Lemma songs_table_Ok (df : DataFrame) :
  has_columns songs_columns df = true ->
  exists t, songs_table df = Ok t /\ columns t = songs_columns.
Proof.
  intros H.
  destruct (select_dropDuplicates songs_columns "song_id" df H)
    as [t [Ht [Hc _]]].
  { simpl. auto. }
  exists t. split; assumption.
Qed.

Lemma songs_table_Raise (df : DataFrame) :
  has_columns songs_columns df = false ->
  songs_table df = Raise unresolved.
Proof.
  intros H. unfold songs_table, select. fold songs_columns.
  rewrite H. reflexivity.
Qed.

Lemma artists_table_Raise (df : DataFrame) :
  has_columns artists_source_columns df = false ->
  artists_table df = Raise unresolved.
Proof.
  intros H. unfold artists_table, select. fold artists_source_columns.
  rewrite H. reflexivity.
Qed.

Lemma users_table_Ok (df : DataFrame) :
  has_columns users_source_columns df = true ->
  exists t, users_table df = Ok t.
Proof.
  intros H.
  destruct (select_dropDuplicates users_source_columns "userId" df H)
    as [t0 [Ht _]].
  { simpl. auto. }
  unfold users_table. unfold users_source_columns in Ht.
  destruct (select _ df) as [t1 | e]; [| discriminate].
  cbn [bind] in Ht |- *. rewrite Ht. cbn [bind]. eexists. reflexivity.
Qed.

Lemma has_column_resolvable (cols : list string) (c : string) :
  has_column cols c = true -> resolvable cols c = true.
Proof.
  unfold has_column, resolvable. rewrite !existsb_exists.
  intros [c' [Hin Heq]]. exists c'. split; [exact Hin |].
  apply String.eqb_eq in Heq. subst c'. unfold same_name.
  apply String.eqb_refl.
Qed.

(** A name no column has, even with the case of the letters ignored, is a
    name no column has. *)
Lemma not_resolvable_has_columns (cs : list string) (df : DataFrame) :
  forallb (resolvable (columns df)) cs = false ->
  has_columns cs df = false.
Proof.
  intros H. unfold has_columns.
  destruct (forallb (has_column (columns df)) cs) eqn:E; [| reflexivity].
  rewrite <- H. symmetry. apply forallb_forall. intros c Hc.
  apply has_column_resolvable.
  rewrite forallb_forall in E. apply E. exact Hc.
Qed.

(** X6.  A catalog frame that lacks one of the five songs columns, the case
    of the letters ignored as the engine ignores it: the stage raises at
    line 43 and writes nothing. *)
Theorem process_song_data_missing_song_column (df : DataFrame) :
  read_load spark (song_data input) = Ok df ->
  forallb (resolvable (columns df)) songs_columns = false ->
  process_song_data etl_globals spark input output w
  = (w, Raise (AnalysisException "cannot resolve column")).
Proof.
  intros Hread Hcols. unfold process_song_data.
  change (global_ etl_globals "os") with (Ok PyModule).
  rewrite (bind_lift_Ok _ PyModule) by reflexivity.
  rewrite (bind_lift_Ok _ df) by exact Hread.
  rewrite (bind_lift_Raise _ unresolved)
    by (apply songs_table_Raise, not_resolvable_has_columns; exact Hcols).
  reflexivity.
Qed.

(** X7.  A catalog frame that has the songs columns and lacks an artists
    column, the case of the letters ignored as the engine ignores it: the
    songs table is written, then the stage raises at line 51; the artists
    path keeps what it held.  The two writes are not one transaction. *)
Theorem process_song_data_missing_artist_column (df : DataFrame) :
  read_load spark (song_data input) = Ok df ->
  has_columns songs_columns df = true ->
  forallb (resolvable (columns df)) artists_source_columns = false ->
  exists t,
    songs_table df = Ok t
    /\ process_song_data etl_globals spark input output w
       = (mkWorld
            (put (songs_path output) (mkStored ["year"; "artist_id"] t)
               (outputs w))
            (temp_views w),
          Raise (AnalysisException "cannot resolve column"))
    /\ lookup (artists_path output)
         (outputs (fst (process_song_data etl_globals spark input output w)))
       = lookup (artists_path output) (outputs w).
Proof.
  intros Hread Hsongs Hartists.
  apply not_resolvable_has_columns in Hartists.
  destruct (songs_table_Ok df Hsongs) as [t [Ht Hc]].
  assert (Hrun : process_song_data etl_globals spark input output w
                 = (mkWorld
                      (put (songs_path output)
                         (mkStored ["year"; "artist_id"] t) (outputs w))
                      (temp_views w),
                    Raise (AnalysisException "cannot resolve column"))).
  { unfold process_song_data.
    change (global_ etl_globals "os") with (Ok PyModule).
    rewrite (bind_lift_Ok _ PyModule) by reflexivity.
    rewrite (bind_lift_Ok _ df) by exact Hread.
    rewrite (bind_lift_Ok _ t) by exact Ht.
    unfold bind_run at 1.
    rewrite write_parquet_overwrite by (rewrite Hc; reflexivity).
    rewrite (bind_lift_Raise _ unresolved)
      by (apply artists_table_Raise; exact Hartists).
    reflexivity. }
  exists t. split; [exact Ht |]. split; [exact Hrun |].
  rewrite Hrun. cbn [fst outputs]. apply lookup_put_other.
  unfold artists_path, songs_path. intro E.
  apply (songs_path_neq_artists_path output). symmetry. exact E.
Qed.

(** X8.  A log frame without a page column: the event stage raises
    [AttributeError] at line 78 and writes nothing. *)
Theorem process_log_data_missing_page (globals : list (string * pyobj))
    (log : DataFrame) :
  global_ globals "os" = Ok PyModule ->
  read_json spark (log_data input) = Ok log ->
  has_column (columns log) "page" = false ->
  process_log_data globals spark input output w
  = (w, Raise (AttributeError "page")).
Proof.
  intros Hos Hread Hpage. unfold process_log_data.
  rewrite (bind_lift_Ok _ PyModule) by exact Hos.
  rewrite (bind_lift_Ok _ log) by exact Hread.
  rewrite (bind_lift_Raise _ (AttributeError "page"))
    by (apply nextsong_Raise; exact Hpage).
  reflexivity.
Qed.

(** X9.  With the module's own names the event stage writes the users table,
    unpartitioned, over what the users path held, and stops at line 92 with
    [NameError]: nothing else is written and no view is registered. *)
Theorem process_log_data_writes_users_then_stops (log : DataFrame) :
  read_json spark (log_data input) = Ok log ->
  has_columns ("page" :: users_source_columns) log = true ->
  exists df users,
    nextsong spark log = Ok df
    /\ users_table df = Ok users
    /\ process_log_data etl_globals spark input output w
       = (mkWorld
            (put (users_path output) (mkStored [] users) (outputs w))
            (temp_views w),
          Raise (NameError "date_convert")).
Proof.
  intros Hread Hcols. unfold has_columns in Hcols. cbn [forallb] in Hcols.
  apply andb_true_iff in Hcols. destruct Hcols as [Hpage Hcols].
  pose proof (nextsong_Ok spark log Hpage) as Hdf.
  destruct (users_table_Ok (only_nextsong log) Hcols) as [users Husers].
  exists (only_nextsong log), users.
  split; [exact Hdf |]. split; [exact Husers |].
  unfold process_log_data.
  change (global_ etl_globals "os") with (Ok PyModule).
  rewrite (bind_lift_Ok _ PyModule) by reflexivity.
  rewrite (bind_lift_Ok _ log) by exact Hread.
  rewrite (bind_lift_Ok _ (only_nextsong log)) by exact Hdf.
  rewrite (bind_lift_Ok _ users) by exact Husers.
  unfold bind_run at 1. rewrite write_parquet_overwrite by reflexivity.
  change (get_timestamp etl_globals)
    with (@Raise (value -> value) (NameError "date_convert")).
  rewrite (bind_lift_Raise _ (NameError "date_convert")) by reflexivity.
  reflexivity.
Qed.

Variable f : value -> value.

(** X10.  With [date_convert] bound to a function and [dayofweek] to the function
    of that name, the event stage writes the users table, then the time
    table partitioned by year and month, registers the second catalog frame
    as the view songs and the numbered events as the view events, and stops
    at line 118: the query text does not parse.  The songplays path keeps
    what it held. *)
Theorem process_log_data_bound_stops_at_query (log song_df : DataFrame) :
  read_json spark (log_data input) = Ok log ->
  read_json spark (song_df_path input) = Ok song_df ->
  has_columns ("ts" :: "page" :: users_source_columns) log = true ->
  exists df users df' times,
    nextsong spark log = Ok df
    /\ users_table df = Ok users
    /\ with_start_time spark f df = Ok df'
    /\ time_table_bound spark df' = Ok times
    /\ process_log_data (globals_bound f) spark input output w
       = (mkWorld
            (put (times_path output) (mkStored ["year"; "month"] times)
               (put (users_path output) (mkStored [] users) (outputs w)))
            (put "events" (songplay_events df')
               (put "songs" song_df (temp_views w))),
          Raise (ParseException "mismatched input in select list")).
Proof.
  intros Hread Hread2 Hcols. unfold has_columns in Hcols.
  cbn [forallb] in Hcols.
  apply andb_true_iff in Hcols. destruct Hcols as [Hts Hcols].
  apply andb_true_iff in Hcols. destruct Hcols as [Hpage Hcols].
  pose proof (nextsong_Ok spark log Hpage) as Hdf.
  destruct (users_table_Ok (only_nextsong log) Hcols) as [users Husers].
  pose proof (with_start_time_Ok spark f (only_nextsong log) Hts) as Hdf'.
  set (df' := mkDataFrame _ _) in Hdf'.
  destruct (time_table_bound_spec spark df') as [times [Ht [Hc _]]].
  { unfold df'. cbn [columns]. rewrite has_column_columns_with.
    rewrite String.eqb_refl. apply orb_true_r. }
  exists (only_nextsong log), users, df', times.
  split; [exact Hdf |]. split; [exact Husers |]. split; [exact Hdf' |].
  split; [exact Ht |].
  unfold process_log_data.
  change (global_ (globals_bound f) "os") with (Ok PyModule).
  rewrite (bind_lift_Ok _ PyModule) by reflexivity.
  rewrite (bind_lift_Ok _ log) by exact Hread.
  rewrite (bind_lift_Ok _ (only_nextsong log)) by exact Hdf.
  rewrite (bind_lift_Ok _ users) by exact Husers.
  unfold bind_run at 1. rewrite write_parquet_overwrite by reflexivity.
  change (get_timestamp (globals_bound f)) with (Ok f).
  rewrite (bind_lift_Ok _ f) by reflexivity.
  rewrite (bind_lift_Ok _ df') by exact Hdf'.
  change (time_table spark (column_function (globals_bound f) "hour")
            (column_function (globals_bound f) "dayofmonth")
            (column_function (globals_bound f) "weekofyear")
            (column_function (globals_bound f) "month")
            (column_function (globals_bound f) "year")
            (column_function (globals_bound f) "dayofweek") df')
    with (time_table_bound spark df').
  rewrite (bind_lift_Ok _ times) by exact Ht.
  unfold bind_run at 1.
  rewrite write_parquet_overwrite by (rewrite Hc; reflexivity).
  rewrite (bind_lift_Ok _ song_df) by exact Hread2.
  change (global_ (globals_bound f) "monotonically_increasing_id")
    with (Ok PyFunction).
  reflexivity.
Qed.

End Outcomes.

(* ================================================================== *)
(** * The tables a run does not leave *)
(* ================================================================== *)

Section NotWritten.

Lemma users_table_no_rows (cols : list string) :
  forallb (has_column cols) users_source_columns = true ->
  users_table (mkDataFrame cols []) = Ok no_users.
Proof.
  intros H. unfold users_table, select, has_columns. cbn [columns rows].
  fold users_source_columns. rewrite H. reflexivity.
Qed.

Lemma users_path_neq_songs_path (output : string) :
  songs_path output <> users_path output.
Proof.
  unfold songs_path, users_path.
  apply os_path_join_one_neq; [reflexivity | reflexivity | discriminate].
Qed.

Lemma users_path_neq_artists_path (output : string) :
  artists_path output <> users_path output.
Proof.
  unfold artists_path, users_path.
  apply os_path_join_one_neq; [reflexivity | reflexivity | discriminate].
Qed.

(** C7.  On a catalog the storage does not hold as Parquet, JSON text as
    the spec has it, the stage leaves no songs table: the read of line 40
    names no format, so it is a Parquet read, it raises, and the stage ends
    there with nothing written; the songs path holds what it held.  The
    defect is the one of C4. *)
Theorem songs_table_is_not_written_from_json (c : cluster)
    (input output : string) (w : world) (e : exn) :
  cluster_storage c (mkRead "parquet" (song_data input)) = Raise e ->
  process_song_data etl_globals (create_spark_session c) input output w
  = (w, Raise e)
  /\ lookup (songs_path output)
       (outputs (fst (process_song_data etl_globals (create_spark_session c)
                        input output w)))
     = lookup (songs_path output) (outputs w).
Proof.
  intros Hread.
  assert (Hrun : process_song_data etl_globals (create_spark_session c)
                   input output w = (w, Raise e)).
  { unfold process_song_data.
    change (global_ etl_globals "os") with (Ok PyModule).
    rewrite (bind_lift_Ok _ PyModule) by reflexivity.
    rewrite (bind_lift_Raise _ e) by exact Hread.
    reflexivity. }
  split; [exact Hrun |]. rewrite Hrun. reflexivity.
Qed.

(** C8.  On a storage that holds the catalog as JSON text the stage leaves
    no artists table, whatever the catalog holds: the run of the stage ends
    at line 40 with the exception of the Parquet reader, and the artists
    path holds what it held.  The defect is the one of C4. *)
Theorem artists_table_is_not_written_from_json (tz : Z -> Z)
    (catalog log : DataFrame) (input output : string) (w : world) :
  process_song_data etl_globals
    (create_spark_session (mkCluster tz (json_storage catalog log)))
    input output w
  = (w, Raise (AnalysisException "not a Parquet file"))
  /\ lookup (artists_path output)
       (outputs
          (fst (process_song_data etl_globals
                  (create_spark_session
                     (mkCluster tz (json_storage catalog log)))
                  input output w)))
     = lookup (artists_path output) (outputs w).
Proof. split; reflexivity. Qed.

(** C9.  On a log without a NextSong row the event stage writes a users
    table without rows and then stops at line 92 with [NameError]: it
    derives no time table and no songplays table, empty or not, and the
    times and songplays paths hold what they held.  The songs and artists
    paths hold what they held too.  The defect is the one of C2. *)
Theorem no_nextsong_stops_after_empty_users (spark : SparkSession)
    (input output : string) (w : world) (log : DataFrame) :
  read_json spark (log_data input) = Ok log ->
  has_columns ("page" :: users_source_columns) log = true ->
  (forall e, In e (rows log) -> page_is_nextsong (columns log) e = false) ->
  let end_ := process_log_data etl_globals spark input output w in
  nextsong spark log = Ok (mkDataFrame (columns log) [])
  /\ end_
     = (mkWorld (put (users_path output) (mkStored [] no_users) (outputs w))
          (temp_views w),
        Raise (NameError "date_convert"))
  /\ lookup (times_path output) (outputs (fst end_))
     = lookup (times_path output) (outputs w)
  /\ lookup (songplays_path output) (outputs (fst end_))
     = lookup (songplays_path output) (outputs w)
  /\ lookup (songs_path output) (outputs (fst end_))
     = lookup (songs_path output) (outputs w)
  /\ lookup (artists_path output) (outputs (fst end_))
     = lookup (artists_path output) (outputs w).
Proof.
  intros Hread Hcols Hnone. cbv zeta.
  unfold has_columns in Hcols. cbn [forallb] in Hcols.
  apply andb_true_iff in Hcols. destruct Hcols as [Hpage Hcols].
  assert (Hdf : nextsong spark log = Ok (mkDataFrame (columns log) [])).
  { rewrite (nextsong_Ok spark log Hpage).
    rewrite filter_none by exact Hnone. reflexivity. }
  assert (Hrun : process_log_data etl_globals spark input output w
                 = (mkWorld
                      (put (users_path output) (mkStored [] no_users)
                         (outputs w))
                      (temp_views w),
                    Raise (NameError "date_convert"))).
  { unfold process_log_data.
    change (global_ etl_globals "os") with (Ok PyModule).
    rewrite (bind_lift_Ok _ PyModule) by reflexivity.
    rewrite (bind_lift_Ok _ log) by exact Hread.
    rewrite (bind_lift_Ok _ _ _ _ Hdf).
    rewrite (bind_lift_Ok _ no_users)
      by (apply users_table_no_rows; exact Hcols).
    unfold bind_run at 1. rewrite write_parquet_overwrite by reflexivity.
    change (get_timestamp etl_globals)
      with (@Raise (value -> value) (NameError "date_convert")).
    rewrite (bind_lift_Raise _ (NameError "date_convert")) by reflexivity.
    reflexivity. }
  split; [exact Hdf |]. split; [exact Hrun |].
  rewrite Hrun. cbn [fst outputs].
  split; [| split; [| split]]; apply lookup_put_other.
  - apply users_path_neq_times_path.
  - apply users_path_neq_songplays_path.
  - apply users_path_neq_songs_path.
  - apply users_path_neq_artists_path.
Qed.

(** C1.  No run of the event stage leaves a songplays table, matching rows
    or not.  The text of lines 118 to 135 has no comma between the entries
    of lines 127 and 128, so the query raises on any views; and the stage
    ends in an exception under any binding of the module's names, the
    songplays path holding what it held.  On a catalog record and a song
    play with the same title, artist name and duration, the stage with the
    module's own names ends at line 92, and with [date_convert] and
    [dayofweek] bound it ends at line 118; in both runs nothing is under
    the songplays path. *)
Theorem songplays_table_is_never_built :
  (forall spark views,
     spark_sql spark views songplays_sql
     = Raise (ParseException "mismatched input in select list"))
  /\ (forall globals spark input output w,
        exists w' e,
          process_log_data globals spark input output w = (w', Raise e)
          /\ lookup (songplays_path output) (outputs w')
             = lookup (songplays_path output) (outputs w))
  /\ (let end_ :=
        process_log_data etl_globals (spark_of catalog1 log1) input_data
          output_data empty_world in
      snd end_ = Raise (NameError "date_convert")
      /\ lookup (songplays_path output_data) (outputs (fst end_)) = None)
  /\ (let end_ :=
        process_log_data (globals_bound date_convert_spec)
          (spark_of catalog1 log1) input_data output_data empty_world in
      snd end_ = Raise (ParseException "mismatched input in select list")
      /\ lookup (songplays_path output_data) (outputs (fst end_)) = None).
Proof.
  split; [reflexivity |]. split; [| split].
  - intros globals spark input output w.
    pose proof (process_log_data_effect globals spark input output) as H.
    destruct (stage_effect_end _ _ _ _ H w) as [e He].
    exists (fst (process_log_data globals spark input output w)), e.
    split.
    + rewrite <- He. apply surjective_pairing.
    + apply (stage_effect_outputs _ _ _ _ H). intro Hin.
      apply (songplays_path_not_written output). cbn [In] in Hin |- *.
      tauto.
  - cbv zeta. split; vm_compute; reflexivity.
  - cbv zeta. split; vm_compute; reflexivity.
Qed.

End NotWritten.

(* ================================================================== *)
(** * More on the tables *)
(* ================================================================== *)

Section TimeTableOfLog.

Variable spark : SparkSession.
Variable f : value -> value.
Variable log : DataFrame.

(** X11.  With [date_convert] bound to [f] and [dayofweek] bound, the time table
    has one row per distinct start time among the NextSong rows of the log
    frame, and each row is the start time of such a row followed by its
    hour, day of month, ISO week, month, year and day of week. *)
Theorem time_table_one_row_per_start_time :
  has_column (columns log) "page" = true ->
  has_column (columns log) "ts" = true ->
  exists df df' t,
    nextsong spark log = Ok df
    /\ with_start_time spark f df = Ok df'
    /\ time_table_bound spark df' = Ok t
    /\ columns t
       = ["start_time"; "hour"; "day"; "week"; "month"; "year"; "weekday"]
    /\ NoDup (map (key_of t "start_time") (rows t))
    /\ (forall k, In k (map (key_of t "start_time") (rows t))
          <-> exists e, In e (rows log)
                /\ page_is_nextsong (columns log) e = true
                /\ norm_value (f (cell (columns log) e "ts")) = k)
    /\ (forall r, In r (rows t) ->
          exists e, In e (rows log)
            /\ page_is_nextsong (columns log) e = true
            /\ r = time_row (time_zone spark) (f (cell (columns log) e "ts"))).
Proof.
  intros Hpage Hts.
  pose proof (nextsong_Ok spark log Hpage) as Hdf.
  pose proof (with_start_time_Ok spark f (only_nextsong log) Hts) as Hdf'.
  set (df' := mkDataFrame _ _) in Hdf'.
  destruct (time_table_bound_spec spark df')
    as [t [Ht [Hc [Hnd [Hkeys Hrows]]]]].
  { unfold df'. cbn [columns]. rewrite has_column_columns_with.
    rewrite String.eqb_refl. apply orb_true_r. }
  assert (Hstart : forall r,
            cell (columns df')
              (set_nth (column_slot (columns log) "start_time")
                 (f (cell (columns log) r "ts")) r) "start_time"
            = f (cell (columns log) r "ts")).
  { intros r. unfold df'. cbn [columns only_nextsong].
    apply cell_columns_with_same. }
  exists (only_nextsong log), df', t.
  split; [exact Hdf |]. split; [exact Hdf' |]. split; [exact Ht |].
  split; [exact Hc |]. split; [exact Hnd |]. split.
  - intros k. rewrite Hkeys. unfold df' at 2. cbn [rows only_nextsong].
    rewrite map_map. split.
    + intros Hin. apply in_map_iff in Hin. destruct Hin as [e [Hk He]].
      apply filter_In in He. destruct He as [He Hp].
      exists e. split; [exact He |]. split; [exact Hp |].
      rewrite <- Hk. unfold key_of. rewrite Hstart. reflexivity.
    + intros [e [He [Hp Hk]]]. apply in_map_iff. exists e. split.
      * unfold key_of. rewrite Hstart. exact Hk.
      * apply filter_In. auto.
  - intros r Hr. destruct (Hrows r Hr) as [r0 [Hr0 ->]].
    unfold df' in Hr0. cbn [rows only_nextsong] in Hr0.
    apply in_map_iff in Hr0. destruct Hr0 as [e [<- He]].
    apply filter_In in He. destruct He as [He Hp].
    exists e. split; [exact He |]. split; [exact Hp |].
    rewrite Hstart. reflexivity.
Qed.

End TimeTableOfLog.

Section SongsAgain.

Lemma drop_dups_fixed (key : Row -> list value) (rs : list Row) :
  forall seen,
    NoDup (map key rs) ->
    (forall r, In r rs -> ~ In (key r) seen) ->
    drop_dups key seen rs = rs.
Proof.
  induction rs as [|r rs IH]; intros seen Hnd Hseen; simpl.
  - reflexivity.
  - inversion Hnd as [|k ks Hnot Hnd']. subst.
    destruct (existsb (list_eqb (key r)) seen) eqn:E.
    + apply seen_key_In in E. exfalso.
      apply (Hseen r); [left; reflexivity | exact E].
    + f_equal. apply IH; [exact Hnd' |].
      intros r' Hr' [Heq | Hin].
      * apply Hnot. rewrite Heq. apply in_map. exact Hr'.
      * apply (Hseen r'); [right; exact Hr' | exact Hin].
Qed.

Lemma NoDup_map_singleton {A : Type} (g : A -> value) (l : list A) :
  NoDup (map g l) -> NoDup (map (fun r => [g r]) l).
Proof.
  induction l as [|a l IH]; simpl; intros H.
  - constructor.
  - inversion H as [|x xs Hnot Hnd]. subst. constructor.
    + intro Hin. apply Hnot. apply in_map_iff in Hin.
      destruct Hin as [b [Hb Hin]]. injection Hb as Hg.
      rewrite <- Hg. apply in_map. exact Hin.
    + apply IH. exact Hnd.
Qed.

Lemma has_columns_self (cs : list string) (rs : list Row) :
  has_columns cs (mkDataFrame cs rs) = true.
Proof.
  unfold has_columns. cbn [columns]. apply forallb_forall.
  intros c Hc. apply has_column_In. exact Hc.
Qed.

(** Projection and de-duplication leave alone a table that has exactly the
    projected columns, rows of that shape and no key twice. *)
Lemma select_dropDuplicates_fixed (cs : list string) (k : string)
    (t : DataFrame) :
  columns t = cs -> In k cs ->
  NoDup (map (key_of t k) (rows t)) ->
  (forall r, In r (rows t) -> map (cell cs r) cs = r) ->
  (t0 <- select cs t;; dropDuplicates [k] t0) = Ok t.
Proof.
  destruct t as [c rs]. cbn [columns rows]. intros -> Hk Hnd Hrows.
  unfold select. rewrite has_columns_self. cbn [bind columns rows].
  assert (Hproj : map (fun r => map (cell cs r) cs) rs = rs).
  { rewrite <- (map_id rs) at 2. apply map_ext_in. exact Hrows. }
  rewrite Hproj. unfold dropDuplicates, has_columns.
  cbn [columns rows forallb].
  assert (Hhas : has_column cs k = true) by (apply has_column_In; exact Hk).
  rewrite Hhas. cbn [andb]. rewrite drop_dups_fixed; [reflexivity | |].
  - unfold key_of in Hnd. cbn [columns] in Hnd.
    unfold row_key. cbn [map].
    apply NoDup_map_singleton. exact Hnd.
  - intros r _ [].
Qed.

(** X13.  The songs table derived again from itself is itself: it has the five
    columns and no song id twice. *)
Theorem songs_table_of_songs_table (df t : DataFrame) :
  songs_table df = Ok t -> songs_table t = Ok t.
Proof.
  intros Ht.
  destruct (has_columns songs_columns df) eqn:Hcols.
  2: { rewrite (songs_table_Raise df Hcols) in Ht. discriminate. }
  destruct (select_dropDuplicates songs_columns "song_id" df Hcols)
    as [t' [Ht' [Hc [Hnd [_ Hrows]]]]].
  { simpl. auto. }
  assert (t' = t).
  { unfold songs_table in Ht. unfold songs_columns in Ht'.
    rewrite Ht' in Ht. inversion Ht. reflexivity. }
  subst t'.
  apply (select_dropDuplicates_fixed songs_columns "song_id" t Hc).
  - simpl. auto.
  - exact Hnd.
  - intros r Hr. destruct (Hrows r Hr) as [r0 [_ ->]].
    apply map_ext_in. intros c Hin. apply cell_map. exact Hin.
Qed.

End SongsAgain.

Section EmptyCatalog.

Variable spark : SparkSession.
Variables input output : string.
Variable w : world.

Lemma songs_table_no_rows (cols : list string) :
  forallb (has_column cols) songs_columns = true ->
  songs_table (mkDataFrame cols []) = Ok no_songs.
Proof.
  intros H. unfold songs_table, select, has_columns. cbn [columns rows].
  fold songs_columns. rewrite H. reflexivity.
Qed.

Lemma artists_table_no_rows (cols : list string) :
  forallb (has_column cols) artists_source_columns = true ->
  artists_table (mkDataFrame cols []) = Ok no_artists.
Proof.
  intros H. unfold artists_table, select, has_columns. cbn [columns rows].
  fold artists_source_columns. rewrite H. reflexivity.
Qed.

(** X16.  A catalog frame with its columns and no record: the catalog stage
    completes and leaves a songs table and an artists table without rows,
    the first partitioned by year and artist id, over what the two paths
    held. *)
Theorem empty_catalog_writes_two_empty_tables (catalog : DataFrame) :
  read_load spark (song_data input) = Ok catalog ->
  has_columns songs_columns catalog = true ->
  has_columns artists_source_columns catalog = true ->
  rows catalog = [] ->
  process_song_data etl_globals spark input output w
  = (mkWorld
       (put (artists_path output) (mkStored [] no_artists)
          (put (songs_path output) (mkStored ["year"; "artist_id"] no_songs)
             (outputs w)))
       (temp_views w),
     Ok tt).
Proof.
  intros Hread Hsongs Hartists Hrows.
  destruct catalog as [cols rs]. cbn [rows] in Hrows. subst rs.
  unfold has_columns in Hsongs, Hartists. cbn [columns] in Hsongs, Hartists.
  unfold process_song_data.
  change (global_ etl_globals "os") with (Ok PyModule).
  rewrite (bind_lift_Ok _ PyModule) by reflexivity.
  rewrite (bind_lift_Ok _ _ _ _ Hread).
  rewrite (bind_lift_Ok _ no_songs)
    by (apply songs_table_no_rows; exact Hsongs).
  unfold bind_run at 1. rewrite write_parquet_overwrite by reflexivity.
  rewrite (bind_lift_Ok _ no_artists)
    by (apply artists_table_no_rows; exact Hartists).
  rewrite write_parquet_overwrite by reflexivity.
  reflexivity.
Qed.

End EmptyCatalog.

(* ================================================================== *)
(** * These theorems on the sample inputs *)
(* ================================================================== *)

Lemma process_song_data_missing_song_column_witness :
  read_load (spark_of catalog_no_title log1) (song_data input_data)
  = Ok catalog_no_title
  /\ forallb (resolvable (columns catalog_no_title)) songs_columns = false
  /\ process_song_data etl_globals (spark_of catalog_no_title log1) input_data
       output_data used_world
     = (used_world, Raise (AnalysisException "cannot resolve column")).
Proof.
  split; [reflexivity |]. split; [reflexivity |].
  apply (process_song_data_missing_song_column
           (spark_of catalog_no_title log1) input_data output_data used_world
           catalog_no_title); reflexivity.
Defined.

Lemma process_song_data_missing_artist_column_witness :
  read_load (spark_of catalog_no_artist_name log1) (song_data input_data)
  = Ok catalog_no_artist_name
  /\ has_columns songs_columns catalog_no_artist_name = true
  /\ forallb (resolvable (columns catalog_no_artist_name))
       artists_source_columns = false
  /\ exists t,
       songs_table catalog_no_artist_name = Ok t
       /\ process_song_data etl_globals (spark_of catalog_no_artist_name log1)
            input_data output_data used_world
          = (mkWorld
               (put (songs_path output_data)
                  (mkStored ["year"; "artist_id"] t) (outputs used_world))
               (temp_views used_world),
             Raise (AnalysisException "cannot resolve column"))
       /\ lookup (artists_path output_data)
            (outputs (fst (process_song_data etl_globals
                             (spark_of catalog_no_artist_name log1)
                             input_data output_data used_world)))
          = lookup (artists_path output_data) (outputs used_world).
Proof.
  split; [reflexivity |]. split; [reflexivity |]. split; [reflexivity |].
  apply (process_song_data_missing_artist_column
           (spark_of catalog_no_artist_name log1) input_data output_data
           used_world catalog_no_artist_name); reflexivity.
Defined.

Lemma process_log_data_missing_page_witness :
  global_ etl_globals "os" = Ok PyModule
  /\ read_json (spark_of catalog1 log_no_page) (log_data input_data)
     = Ok log_no_page
  /\ has_column (columns log_no_page) "page" = false
  /\ process_log_data etl_globals (spark_of catalog1 log_no_page) input_data
       output_data used_world
     = (used_world, Raise (AttributeError "page")).
Proof.
  split; [reflexivity |]. split; [reflexivity |]. split; [reflexivity |].
  apply (process_log_data_missing_page (spark_of catalog1 log_no_page)
           input_data output_data used_world etl_globals log_no_page);
    reflexivity.
Defined.

Lemma process_log_data_writes_users_then_stops_witness :
  read_json sample_spark (log_data input_data) = Ok log_mixed
  /\ has_columns ("page" :: users_source_columns) log_mixed = true
  /\ exists df users,
       nextsong sample_spark log_mixed = Ok df
       /\ users_table df = Ok users
       /\ process_log_data etl_globals sample_spark input_data output_data
            used_world
          = (mkWorld
               (put (users_path output_data) (mkStored [] users)
                  (outputs used_world))
               (temp_views used_world),
             Raise (NameError "date_convert")).
Proof.
  split; [reflexivity |]. split; [reflexivity |].
  apply (process_log_data_writes_users_then_stops sample_spark input_data
           output_data used_world log_mixed); reflexivity.
Defined.

Lemma process_log_data_bound_stops_at_query_witness :
  read_json sample_spark (log_data input_data) = Ok log_mixed
  /\ read_json sample_spark (song_df_path input_data) = Ok catalog2
  /\ has_columns ("ts" :: "page" :: users_source_columns) log_mixed = true
  /\ exists df users df' times,
       nextsong sample_spark log_mixed = Ok df
       /\ users_table df = Ok users
       /\ with_start_time sample_spark date_convert_spec df = Ok df'
       /\ time_table_bound sample_spark df' = Ok times
       /\ process_log_data (globals_bound date_convert_spec) sample_spark
            input_data output_data used_world
          = (mkWorld
               (put (times_path output_data)
                  (mkStored ["year"; "month"] times)
                  (put (users_path output_data) (mkStored [] users)
                     (outputs used_world)))
               (put "events" (songplay_events df')
                  (put "songs" catalog2 (temp_views used_world))),
             Raise (ParseException "mismatched input in select list")).
Proof.
  split; [reflexivity |]. split; [reflexivity |]. split; [reflexivity |].
  apply (process_log_data_bound_stops_at_query sample_spark input_data
           output_data used_world date_convert_spec log_mixed catalog2);
    reflexivity.
Defined.

Lemma time_table_one_row_per_start_time_witness :
  has_column (columns log_mixed) "page" = true
  /\ has_column (columns log_mixed) "ts" = true
  /\ exists df df' t,
       nextsong sample_spark log_mixed = Ok df
       /\ with_start_time sample_spark date_convert_spec df = Ok df'
       /\ time_table_bound sample_spark df' = Ok t
       /\ columns t
          = ["start_time"; "hour"; "day"; "week"; "month"; "year"; "weekday"]
       /\ NoDup (map (key_of t "start_time") (rows t))
       /\ (forall k, In k (map (key_of t "start_time") (rows t))
             <-> exists e, In e (rows log_mixed)
                   /\ page_is_nextsong (columns log_mixed) e = true
                   /\ norm_value
                        (date_convert_spec (cell (columns log_mixed) e "ts"))
                      = k)
       /\ (forall r, In r (rows t) ->
             exists e, In e (rows log_mixed)
               /\ page_is_nextsong (columns log_mixed) e = true
               /\ r = time_row (time_zone sample_spark)
                        (date_convert_spec (cell (columns log_mixed) e "ts"))).
Proof.
  split; [reflexivity |]. split; [reflexivity |].
  apply (time_table_one_row_per_start_time sample_spark date_convert_spec
           log_mixed); reflexivity.
Defined.

Lemma songs_table_of_songs_table_witness :
  songs_table catalog2 = Ok songs_of_catalog2
  /\ songs_table songs_of_catalog2 = Ok songs_of_catalog2.
Proof.
  split; [reflexivity |].
  apply (songs_table_of_songs_table catalog2 songs_of_catalog2).
  reflexivity.
Defined.

(** The hypothesis on the songs columns leaves out a frame whose column
    differs from the name in the case of its letters only. *)
Example capital_title_is_resolvable :
  has_columns songs_columns catalog_capital_title = false
  /\ forallb (resolvable (columns catalog_capital_title)) songs_columns
     = true.
Proof. split; reflexivity. Qed.

(** The duration 180 of an integral column matches the double 180.0. *)
Example integral_matches_double :
  sql_eq (VInt 180) d180 = VBool true
  /\ sql_eq d180 (VInt 181) = VBool false.
Proof. split; vm_compute; reflexivity. Qed.

Lemma songs_table_is_not_written_from_json_witness :
  cluster_storage json_cluster (mkRead "parquet" (song_data input_data))
  = Raise (AnalysisException "not a Parquet file")
  /\ process_song_data etl_globals (create_spark_session json_cluster)
       input_data output_data used_world
     = (used_world, Raise (AnalysisException "not a Parquet file"))
  /\ lookup (songs_path output_data)
       (outputs (fst (process_song_data etl_globals
                        (create_spark_session json_cluster) input_data
                        output_data used_world)))
     = lookup (songs_path output_data) (outputs used_world).
Proof.
  split; [reflexivity |].
  apply (songs_table_is_not_written_from_json json_cluster input_data
           output_data used_world
           (AnalysisException "not a Parquet file")).
  reflexivity.
Defined.

Lemma no_nextsong_stops_after_empty_users_witness :
  read_json (spark_of catalog1 log_no_play) (log_data input_data)
  = Ok log_no_play
  /\ has_columns ("page" :: users_source_columns) log_no_play = true
  /\ (forall e, In e (rows log_no_play) ->
        page_is_nextsong (columns log_no_play) e = false)
  /\ let end_ :=
       process_log_data etl_globals (spark_of catalog1 log_no_play)
         input_data output_data used_world in
     nextsong (spark_of catalog1 log_no_play) log_no_play
     = Ok (mkDataFrame (columns log_no_play) [])
     /\ end_
        = (mkWorld
             (put (users_path output_data) (mkStored [] no_users)
                (outputs used_world))
             (temp_views used_world),
           Raise (NameError "date_convert"))
     /\ lookup (times_path output_data) (outputs (fst end_))
        = lookup (times_path output_data) (outputs used_world)
     /\ lookup (songplays_path output_data) (outputs (fst end_))
        = lookup (songplays_path output_data) (outputs used_world)
     /\ lookup (songs_path output_data) (outputs (fst end_))
        = lookup (songs_path output_data) (outputs used_world)
     /\ lookup (artists_path output_data) (outputs (fst end_))
        = lookup (artists_path output_data) (outputs used_world).
Proof.
  assert (Hnone : forall e, In e (rows log_no_play) ->
                    page_is_nextsong (columns log_no_play) e = false).
  { intros e [<- | [<- | []]]; reflexivity. }
  split; [reflexivity |]. split; [reflexivity |]. split; [exact Hnone |].
  apply (no_nextsong_stops_after_empty_users (spark_of catalog1 log_no_play)
           input_data output_data used_world log_no_play);
    [reflexivity | reflexivity | exact Hnone].
Defined.

Lemma empty_catalog_writes_two_empty_tables_witness :
  read_load (spark_of catalog_empty log1) (song_data input_data)
  = Ok catalog_empty
  /\ has_columns songs_columns catalog_empty = true
  /\ has_columns artists_source_columns catalog_empty = true
  /\ rows catalog_empty = []
  /\ process_song_data etl_globals (spark_of catalog_empty log1) input_data
       output_data used_world
     = (mkWorld
          (put (artists_path output_data) (mkStored [] no_artists)
             (put (songs_path output_data)
                (mkStored ["year"; "artist_id"] no_songs)
                (outputs used_world)))
          (temp_views used_world),
        Ok tt).
Proof.
  split; [reflexivity |]. split; [reflexivity |]. split; [reflexivity |].
  split; [reflexivity |].
  apply (empty_catalog_writes_two_empty_tables (spark_of catalog_empty log1)
           input_data output_data used_world catalog_empty); reflexivity.
Defined.
